(** * DataTool: TTL cache and derived team analytics

    A shallow embedding of [tools/data_tool.py].  The Python object is a
    record threaded through a state-and-exception monad; the clock read by
    [datetime.now()] and the external statistics provider are explicit.

    Numbers: Python [int] is [Z]; Python [float] is modelled by exact
    rationals [Q] (binary rounding is abstracted away); a [datetime] is a
    number of seconds in [Z], and [datetime.max] is a separate top element.

    Time: the clock is part of the state.  It is advanced by the
    environment between statements ([sleep], and [Tick] for overlapping
    callers); an external call answers according to the time at which it is
    made and is counted by a ghost counter that no code path reads. *)

From Stdlib Require Import ZArith QArith Qround Qminmax Lia.
From stdpp Require Import base option list sorting strings gmap pretty.

Local Open Scope Z_scope.

(** ** Exceptions and outcomes *)

Inductive exn : Type :=
  | StatisticsError          (* statistics.mean / statistics.stdev *)
  | KeyError                 (* subscript on a value of the wrong shape *)
  | ProviderError (msg : string).   (* anything raised by an nba_api endpoint *)

Inductive outcome (A : Type) : Type :=
  | Returns (a : A)
  | Raises (e : exn).
Arguments Returns {A} a.
Arguments Raises {A} e.

(** A Python [float] that may be [nan] (the mean of an empty pandas
    column); every other float of the program is finite. *)
Inductive pyfloat : Type :=
  | Float (q : Q)
  | NaN.

(** ** Entities held in dictionaries by the source *)

Module Game.
Record t : Type := mk {
  game_id : string;
  date : string;
  matchup : string;
  result : string;
  team_points : Z;
  opponent_points : Z;
  plus_minus : Z;
  field_goal_pct : Q;
  three_point_pct : Q;
  rebounds : Z;
  assists : Z;
  turnovers : Z
}.
End Game.

Module Standings.
Record t : Type := mk {
  conference : string;
  league_rank : Z;
  wins : Z;
  losses : Z;
  win_pct : Q;
  games_back : Q;
  last_10 : string;
  streak : string
}.
End Standings.

Module Player.
(* one roster dictionary; the provider's roster rows carry the same six
   columns (PLAYER_ID, PLAYER, POSITION, NUM, AGE, EXP) *)
Record t : Type := mk {
  player_id : Z;
  player_name : string;
  position : string;
  jersey_number : string;
  age : Z;
  experience : string
}.
End Player.

Module Performer.
Record t : Type := mk {
  player_name : string;
  position : string;
  avg_points : pyfloat;
  avg_assists : pyfloat;
  avg_rebounds : pyfloat
}.
End Performer.

(** Values that reach the cache.  [PyNone] is Python's [None]; the empty
    dictionary has a constructor of its own because the fetchers return it
    on failure. *)
Inductive pyval : Type :=
  | PyNone
  | PyEmptyDict
  | PyStandings (s : Standings.t)
  | PyGames (l : list Game.t)
  | PyRoster (l : list Player.t)
  | PyPerformers (l : list Performer.t).

(** [bool(x)] *)
Definition truthy (x : pyval) : bool :=
  match x with
  | PyNone | PyEmptyDict => false
  | PyStandings _ => true
  | PyGames l => negb (bool_decide (l = []))
  | PyRoster l => negb (bool_decide (l = []))
  | PyPerformers l => negb (bool_decide (l = []))
  end.

(** ** The object, its clock and the monad *)

(** The second component of a cache tuple: a [datetime], or [datetime.max]. *)
Inductive expiry : Type :=
  | At (t : Z)
  | DatetimeMax.

(** [now < expiry] *)
Definition before (now : Z) (e : expiry) : bool :=
  match e with
  | At t => bool_decide (now < t)
  | DatetimeMax => true
  end.

Record State : Type := mkState {
  team_id : Z;                              (* self.team_id *)
  _cache : gmap string (pyval * expiry);    (* self._cache *)
  clock : Z;                                (* what datetime.now() reads *)
  api_calls : nat                           (* ghost: external calls made so far *)
}.

Definition M (A : Type) : Type := State → outcome A * State.

#[global] Instance M_ret : MRet M := λ A a s, (Returns a, s).
#[global] Instance M_bind : MBind M := λ A B f m s,
  match m s with
  | (Returns a, s') => f a s'
  | (Raises e, s') => (Raises e, s')
  end.

Definition raise {A} (e : exn) : M A := λ s, (Raises e, s).

(** [try: body  except: handler] *)
Definition try_except {A} (body : M A) (handler : exn → M A) : M A := λ s,
  match body s with
  | (Returns a, s') => (Returns a, s')
  | (Raises e, s') => handler e s'
  end.

Definition lift {A} (o : outcome A) : M A := λ s, (o, s).

Definition datetime_now : M Z := λ s, (Returns (clock s), s).

Definition get_cache : M (gmap string (pyval * expiry)) := λ s, (Returns (_cache s), s).

Definition put_cache (c : gmap string (pyval * expiry)) : M unit := λ s,
  (Returns tt, mkState (team_id s) c (clock s) (api_calls s)).

Definition self_team_id : M Z := λ s, (Returns (team_id s), s).

(** A call that leaves the process: the answer may depend on when it is
    made; the ghost counter records that it was made. *)
Definition external {A} (endpoint : Z → outcome A) : M A := λ s,
  (endpoint (clock s), mkState (team_id s) (_cache s) (clock s) (S (api_calls s))).

(** Time passing between two calls (the environment, not the source). *)
Definition sleep (d : Z) (s : State) : State :=
  mkState (team_id s) (_cache s) (clock s + d) (api_calls s).

(** ** Cache primitives *)

Definition _get_cached (key : string) (ttl_seconds : option Z) : M pyval :=
  cache ← get_cache;
  match cache !! key with
  | None => mret PyNone
  | Some (data, expiry) =>
      now ← datetime_now;
      if bool_decide (ttl_seconds = None) || before now expiry
      then mret data
      else put_cache (delete key cache);; mret PyNone
  end.

(** [if ttl_seconds] is false for [None] and for [0]. *)
Definition ttl_truthy (ttl_seconds : option Z) : bool :=
  match ttl_seconds with
  | None => false
  | Some n => negb (bool_decide (n = 0))
  end.

Definition _set_cache (key : string) (data : pyval) (ttl_seconds : option Z) : M unit :=
  expiry ← (if ttl_truthy ttl_seconds
            then now ← datetime_now; mret (At (now + default 0 ttl_seconds))
            else mret DatetimeMax);
  cache ← get_cache;
  put_cache (<[key := (data, expiry)]> cache).

Definition is_not_None (x : pyval) : bool :=
  match x with PyNone => false | _ => true end.

Definition _fetch_or_cache (key : string) (fetch_func : M pyval)
    (ttl_seconds : option Z) : M pyval :=
  cached ← _get_cached key ttl_seconds;
  if is_not_None cached then mret cached
  else
    data ← fetch_func;
    _set_cache key data ttl_seconds;;
    mret data.

Definition get_cache_stats : M (nat * nat) :=
  cache ← get_cache;
  now ← datetime_now;
  let valid := length (filter (λ kv, before now (snd (snd kv)) = true) (map_to_list cache)) in
  mret (size cache, valid).

Definition clear_cache : M unit := put_cache ∅.

(** ** Arithmetic used by the source *)

Definition sumZ (xs : list Z) : Z := foldr Z.add 0 xs.
Definition sumQ (xs : list Q) : Q := foldr Qplus 0%Q xs.

Definition Qltb (x y : Q) : bool := negb (Qle_bool y x).

(** Nearest integer, ties to the even one (Python's [round]). *)
Definition round_half_even (q : Q) : Z :=
  let f := Qfloor q in
  match Qcompare (q - inject_Z f) (1 # 2) with
  | Lt => f
  | Gt => f + 1
  | Eq => if Z.even f then f else f + 1
  end.

(** [round(q, ndigits)] *)
Definition py_round (q : Q) (ndigits : nat) : Q :=
  let scale := 10 ^ Z.of_nat ndigits in
  Qmake (round_half_even (q * inject_Z scale)) (Z.to_pos scale).

(** [statistics.mean]: fails on no data. *)
Definition mean (data : list Q) : outcome Q :=
  match data with
  | [] => Raises StatisticsError
  | _ => Returns (sumQ data / inject_Z (Z.of_nat (length data)))%Q
  end.

(** The sample variance behind [statistics.stdev]: fails on fewer than two
    data points. *)
Definition variance (data : list Q) : outcome Q :=
  match data with
  | [] | [_] => Raises StatisticsError
  | _ =>
      let n := inject_Z (Z.of_nat (length data)) in
      let m := (sumQ data / n)%Q in
      Returns (sumQ ((λ x, (x - m) * (x - m))%Q <$> data) / (n - 1))%Q
  end.

(** [statistics.stdev(data) < bound] for a non-negative [bound]: the square
    root is increasing, so the test is made on the variance. *)
Definition stdev_lt (data : list Q) (bound : Q) : outcome bool :=
  match variance data with
  | Returns v => Returns (Qltb v (bound * bound))
  | Raises e => Raises e
  end.

(** [column.mean()] of pandas: [nan] on an empty column. *)
Definition series_mean (column : list Z) : pyfloat :=
  match column with
  | [] => NaN
  | _ => Float (inject_Z (sumZ column) / inject_Z (Z.of_nat (length column)))%Q
  end.

Definition round_float (x : pyfloat) (ndigits : nat) : pyfloat :=
  match x with
  | Float q => Float (py_round q ndigits)
  | NaN => NaN
  end.

(** [x < y] on floats: false as soon as one side is [nan]. *)
Definition float_lt (x y : pyfloat) : bool :=
  match x, y with
  | Float a, Float b => Qltb a b
  | _, _ => false
  end.

(** ** Sorting

    [sorted(l, key=key, reverse=True)] keeps elements with equal keys in
    their original order.  It is modelled by a stable insertion sort that
    only uses the strict comparison of keys, as Python does. *)
Section Sorting.
Context {A K : Type} (key : A → K) (lt : K → K → bool).

Fixpoint insert_desc (x : A) (l : list A) : list A :=
  match l with
  | [] => [x]
  | y :: l' => if lt (key x) (key y) then y :: insert_desc x l' else x :: l
  end.

Definition sorted_reverse (l : list A) : list A := foldr insert_desc [] l.
End Sorting.

(** ** The external provider

    One table row per record; an endpoint either raises or returns a table.
    Its answer may change with the time of the call. *)

Module LeagueGameLog.
Record row : Type := mk {
  TEAM_ID : Z;
  GAME_ID : string;
  GAME_DATE : string;
  MATCHUP : string;
  WL : string;
  PTS : Z;
  PLUS_MINUS : Z;
  FG_PCT : Q;
  FG3_PCT : Q;
  REB : Z;
  AST : Z;
  TOV : Z
}.
End LeagueGameLog.

Module LeagueStandings.
Record row : Type := mk {
  TeamID : Z;
  Conference : string;
  LeagueRank : Z;
  WINS : Z;
  LOSSES : Z;
  WinPCT : Q;
  ConferenceGamesBack : Q;
  L10 : string;
  CurrentStreak : string
}.
End LeagueStandings.

Module PlayerGameLog.
Record row : Type := mk {
  PTS : Z;
  AST : Z;
  REB : Z
}.
End PlayerGameLog.

Record Provider : Type := mkProvider {
  league_game_log : Z → outcome (list LeagueGameLog.row);
  league_standings : Z → outcome (list LeagueStandings.row);
  common_team_roster : Z → Z → outcome (list Player.t);      (* team id, time *)
  player_game_log : Z → Z → outcome (list PlayerGameLog.row) (* player id, time *)
}.

(** ** Results of the derivations *)

Module Streak.
Record t : Type := mk {
  streak_type : string;
  streak_length : Z;
  recent_record : option (Z * Z)     (* wins, losses; absent when unknown *)
}.
End Streak.

Module Trends.
Record t : Type := mk {
  trend : string;
  recent_win_rate : Q;
  previous_win_rate : Q;
  recent_avg : Q;
  previous_avg : Q;
  change : Q;
  momentum : string
}.
End Trends.

Module PerformanceMetrics.
Record t : Type := mk {
  win_rate : Q;
  wins : Z;
  losses : Z;
  avg_points : Q;
  avg_margin : Q;
  avg_fg_pct : Q;
  consistency : string
}.
End PerformanceMetrics.

Module CompetitiveContext.
Record t : Type := mk {
  league_rank : Z;
  competitive_tier : string;
  playoff_status : string;
  win_pct : Q;
  games_back : Q
}.
End CompetitiveContext.

Module Momentum.
Record t : Type := mk {
  score : Q;
  sentiment : string;
  trend : string
}.
End Momentum.

(** [sum(1 for x in l if p(x))] *)
Definition count_if {A} (P : A → Prop) `{!∀ x, Decision (P x)} (l : list A) : Z :=
  sumZ ((λ _, 1) <$> filter P l).

Definition game_of_row (g : LeagueGameLog.row) : Game.t :=
  Game.mk (LeagueGameLog.GAME_ID g) (LeagueGameLog.GAME_DATE g)
    (LeagueGameLog.MATCHUP g) (LeagueGameLog.WL g)
    (LeagueGameLog.PTS g)
    (LeagueGameLog.PTS g - LeagueGameLog.PLUS_MINUS g)
    (LeagueGameLog.PLUS_MINUS g)
    (LeagueGameLog.FG_PCT g) (LeagueGameLog.FG3_PCT g)
    (LeagueGameLog.REB g) (LeagueGameLog.AST g) (LeagueGameLog.TOV g).

Definition standings_of_row (s : LeagueStandings.row) : Standings.t :=
  Standings.mk (LeagueStandings.Conference s) (LeagueStandings.LeagueRank s)
    (LeagueStandings.WINS s) (LeagueStandings.LOSSES s)
    (LeagueStandings.WinPCT s) (LeagueStandings.ConferenceGamesBack s)
    (LeagueStandings.L10 s) (LeagueStandings.CurrentStreak s).

Definition performer_entry (player : Player.t) (recent : list PlayerGameLog.row)
    : Performer.t :=
  Performer.mk (Player.player_name player) (Player.position player)
    (round_float (series_mean (PlayerGameLog.PTS <$> recent)) 1)
    (round_float (series_mean (PlayerGameLog.AST <$> recent)) 1)
    (round_float (series_mean (PlayerGameLog.REB <$> recent)) 1).

(** ** The methods of [DataTool] *)

Section DataTool.
Context (api : Provider).

(** [get_recent_games]: the closure [fetch], then the cached method.
    pandas' sort is modelled by the stable sort above; a team has one
    game per date, so ties do not arise. *)
Definition get_recent_games_fetch (num_games : nat) : M pyval :=
  try_except
    (games_df ← external (league_game_log api);
     tid ← self_team_id;
     let team_games := filter (λ g, LeagueGameLog.TEAM_ID g = tid) games_df in
     if bool_decide (team_games = []) then mret (PyGames [])
     else
       let team_games :=
         sorted_reverse LeagueGameLog.GAME_DATE String.ltb team_games in
       mret (PyGames (game_of_row <$> take num_games team_games)))
    (λ _, mret (PyGames [])).

Definition get_recent_games (num_games : nat) : M pyval :=
  _fetch_or_cache ("games_" +:+ pretty num_games)
    (get_recent_games_fetch num_games) (Some 300).

Definition default_streak : Streak.t := Streak.mk "unknown" 0 None.

Definition get_team_win_streak : M Streak.t :=
  games ← get_recent_games 20;
  if negb (truthy games) then mret default_streak
  else
    match games with
    | PyGames (g0 :: rest) =>
        let games := g0 :: rest in
        let current := Game.result g0 in
        let streak :=
          sumZ ((λ g, if bool_decide (Game.result g = current) then 1 else 0)
                  <$> games) in
        let wins_10 := count_if (λ g, Game.result g = "W") (take 10 games) in
        mret (Streak.mk
                (if bool_decide (current = "W") then "winning" else "losing")
                streak
                (Some (wins_10, 10 - wins_10)))
    | _ => raise KeyError
    end.

Definition get_standings_fetch : M pyval :=
  try_except
    (df ← external (league_standings api);
     tid ← self_team_id;
     match filter (λ r, LeagueStandings.TeamID r = tid) df with
     | [] => mret PyEmptyDict
     | s :: _ => mret (PyStandings (standings_of_row s))
     end)
    (λ _, mret PyEmptyDict).

Definition get_standings : M pyval :=
  _fetch_or_cache "standings" get_standings_fetch (Some 300).

Definition get_team_roster_fetch : M pyval :=
  try_except
    (tid ← self_team_id;
     df ← external (common_team_roster api tid);
     mret (PyRoster df))
    (λ _, mret (PyRoster [])).

Definition get_team_roster : M pyval :=
  _fetch_or_cache "roster" get_team_roster_fetch (Some 3600).

(** The [for player in roster[:10]] loop; [performers] is the list being
    appended to.  A failing log fetch leaves it as it is. *)
Fixpoint performers_loop (num_games : nat) (players : list Player.t)
    (performers : list Performer.t) : M (list Performer.t) :=
  match players with
  | [] => mret performers
  | player :: rest =>
      performers ←
        try_except
          (df ← external (player_game_log api (Player.player_id player));
           if bool_decide (df = []) then mret performers
           else mret (performers ++ [performer_entry player (take num_games df)]))
          (λ _, mret performers);
      performers_loop num_games rest performers
  end.

Definition get_top_performers_fetch (num_games : nat) : M pyval :=
  try_except
    (roster ← get_team_roster;
     match roster with
     | PyRoster l =>
         performers ← performers_loop num_games (take 10 l) [];
         mret (PyPerformers
                 (take 5 (sorted_reverse Performer.avg_points float_lt performers)))
     | PyGames _ | PyPerformers _ =>
         (* every iteration fails at player['player_id'] and is skipped *)
         mret (PyPerformers [])
     | _ => raise KeyError
     end)
    (λ _, mret (PyPerformers [])).

Definition get_top_performers (num_games : nat) : M pyval :=
  _fetch_or_cache ("performers_" +:+ pretty num_games)
    (get_top_performers_fetch num_games) (Some 3600).

Definition analyze_performance_trends : M (option Trends.t) :=
  games ← get_recent_games 20;
  if negb (truthy games) then mret None
  else
    match games with
    | PyGames games =>
        let first := drop 10 games in
        let second := take 10 games in
        let first_wins := count_if (λ g, Game.result g = "W") first in
        let second_wins := count_if (λ g, Game.result g = "W") second in
        first_avg ← lift (mean ((λ g, inject_Z (Game.team_points g)) <$> first));
        second_avg ← lift (mean ((λ g, inject_Z (Game.team_points g)) <$> second));
        mret (Some (Trends.mk
          (if bool_decide (first_wins < second_wins) then "improving" else "declining")
          (inject_Z second_wins / 10)%Q
          (inject_Z first_wins / 10)%Q
          (py_round second_avg 1)
          (py_round first_avg 1)
          (py_round (second_avg - first_avg) 1)
          (if bool_decide (first_wins < second_wins) && Qltb first_avg second_avg
           then "positive" else "negative")))
    | _ => raise KeyError
    end.

Definition default_metrics : PerformanceMetrics.t :=
  PerformanceMetrics.mk 0 0 0 0 0 0 "unknown".

Definition get_performance_metrics (num_games : nat) : M PerformanceMetrics.t :=
  games ← get_recent_games num_games;
  if negb (truthy games) then mret default_metrics
  else
    match games with
    | PyGames games =>
        let wins := count_if (λ g, Game.result g = "W") games in
        let points := (λ g, inject_Z (Game.team_points g)) <$> games in
        let margins :=
          (λ g, inject_Z (Game.team_points g - Game.opponent_points g)) <$> games in
        let fg_pcts := Game.field_goal_pct <$> games in
        let len := Z.of_nat (length games) in
        avg_points ← lift (mean points);
        avg_margin ← lift (mean margins);
        avg_fg_pct ← lift (mean fg_pcts);
        steady ← lift (stdev_lt points 8);
        mret (PerformanceMetrics.mk
          (py_round (inject_Z wins / inject_Z len) 3)
          wins
          (len - wins)
          (py_round avg_points 1)
          (py_round avg_margin 1)
          (py_round (avg_fg_pct * 100) 1)
          (if steady : bool then "high" else "moderate"))
    | _ => raise KeyError
    end.

Definition default_context : CompetitiveContext.t :=
  CompetitiveContext.mk 15 "unknown" "unknown" (1 # 2) 0.

Definition get_competitive_context : M CompetitiveContext.t :=
  standings ← get_standings;
  if negb (truthy standings) then mret default_context
  else
    match standings with
    | PyStandings standings =>
        let rank := Standings.league_rank standings in
        let '(tier, status) :=
          if bool_decide (rank ≤ 6) then ("championship_contender", "guaranteed")
          else if bool_decide (rank ≤ 10) then ("play_in_team", "likely")
          else ("rebuild_mode", "unlikely") in
        mret (CompetitiveContext.mk rank tier status
                (Standings.win_pct standings) (Standings.games_back standings))
    | _ => raise KeyError
    end.

(** The body of [calculate_momentum_score] after its two reads. *)
Definition momentum_of (trends : option Trends.t) (streak : Streak.t) : Momentum.t :=
  let score := (50 + (default (1 # 2) (Trends.recent_win_rate <$> trends) - (1 # 2)) * 60)%Q in
  let streak_type := Streak.streak_type streak in
  let streak_len := Streak.streak_length streak in
  let score :=
    (score + (if bool_decide (streak_type = "winning")
              then inject_Z (Z.min (streak_len * 3) 20)
              else - inject_Z (Z.min (streak_len * 3) 20)))%Q in
  let label := Trends.momentum <$> trends in
  let score :=
    (score + (if bool_decide (label = Some "positive") then 10
              else if bool_decide (label = Some "negative") then -10 else 0))%Q in
  let score := Qmax 0 (Qmin 100 score) in
  let sentiment :=
    if Qle_bool 75 score then "excellent"
    else if Qle_bool 60 score then "positive"
    else if Qle_bool 40 score then "neutral" else "concerning" in
  Momentum.mk (py_round score 1) sentiment
    (default "stable" (Trends.trend <$> trends)).

Definition calculate_momentum_score : M Momentum.t :=
  trends ← analyze_performance_trends;
  streak ← get_team_win_streak;
  mret (momentum_of trends streak).
End DataTool.

(** ** Callers of [_fetch_or_cache], one after another and overlapping

    The source has no lock and no registry of pending loads.  A call is the
    three statements of the function body; callers that overlap are
    interleaved between these statements. *)

(** Calls made in sequence; each waits [d] seconds before it starts. *)
Fixpoint repeated_calls (key : string) (fetch_func : M pyval) (ttl_seconds : option Z)
    (delays : list Z) (s : State) : list (outcome pyval) * State :=
  match delays with
  | [] => ([], s)
  | d :: delays =>
      let '(r, s) := _fetch_or_cache key fetch_func ttl_seconds (sleep d s) in
      let '(rs, s) := repeated_calls key fetch_func ttl_seconds delays s in
      (r :: rs, s)
  end.

(** Where a caller stands in the body of [_fetch_or_cache]. *)
Inductive caller : Type :=
  | AtLookup                       (* about to run _get_cached *)
  | AtLoad                         (* missed; about to run fetch_func *)
  | AtStore (data : pyval)         (* loaded; about to run _set_cache *)
  | Finished (r : outcome pyval).

Definition caller_step (key : string) (fetch_func : M pyval) (ttl_seconds : option Z)
    (c : caller) (s : State) : caller * State :=
  match c with
  | AtLookup =>
      match _get_cached key ttl_seconds s with
      | (Returns cached, s') =>
          if is_not_None cached then (Finished (Returns cached), s') else (AtLoad, s')
      | (Raises e, s') => (Finished (Raises e), s')
      end
  | AtLoad =>
      match fetch_func s with
      | (Returns data, s') => (AtStore data, s')
      | (Raises e, s') => (Finished (Raises e), s')
      end
  | AtStore data =>
      match _set_cache key data ttl_seconds s with
      | (Returns _, s') => (Finished (Returns data), s')
      | (Raises e, s') => (Finished (Raises e), s')
      end
  | Finished r => (Finished r, s)
  end.

Inductive event : Type :=
  | Step (i : nat)     (* caller [i] executes its next statement *)
  | Tick (d : Z).      (* [d] seconds pass *)

Definition run_event (key : string) (fetch_func : M pyval) (ttl_seconds : option Z)
    (ev : event) (cs : list caller * State) : list caller * State :=
  match ev with
  | Tick d => (cs.1, sleep d cs.2)
  | Step i =>
      match cs.1 !! i with
      | Some c =>
          let '(c', s') := caller_step key fetch_func ttl_seconds c cs.2 in
          (<[i := c']> cs.1, s')
      | None => cs
      end
  end.

Definition run_schedule (key : string) (fetch_func : M pyval) (ttl_seconds : option Z)
    (schedule : list event) (cs : list caller * State) : list caller * State :=
  foldl (λ acc ev, run_event key fetch_func ttl_seconds ev acc) cs schedule.

(** ** Vocabulary of the statements below *)

(** The log of [player] can be fetched at time [now] and is not empty. *)
Definition has_log (api : Provider) (now : Z) (player : Player.t) : Prop :=
  match player_game_log api (Player.player_id player) now with
  | Returns (_ :: _) => True
  | _ => False
  end.

#[global] Instance has_log_dec api now player : Decision (has_log api now player).
Proof.
  unfold has_log.
  destruct (player_game_log api (Player.player_id player) now) as [[|r df]|e];
    [right | left | right]; tauto.
Defined.

(** The dictionary appended for a player with a log. *)
Definition entry_of (api : Provider) (now : Z) (num_games : nat) (player : Player.t)
    : Performer.t :=
  match player_game_log api (Player.player_id player) now with
  | Returns df => performer_entry player (take num_games df)
  | Raises _ => performer_entry player []
  end.

(** The entries of the players with a log, in the order of [players]. *)
Definition entries (api : Provider) (now : Z) (num_games : nat)
    (players : list Player.t) : list Performer.t :=
  entry_of api now num_games <$> filter (has_log api now) players.

(** The sort key as a rational ([nan] never occurs among [entries] when
    [num_games] is positive). *)
Definition points (p : Performer.t) : Q :=
  match Performer.avg_points p with
  | Float q => q
  | NaN => 0%Q
  end.

(** Same average points. *)
Definition tied (p q : Performer.t) : Prop := Qeq_bool (points p) (points q) = true.

#[global] Instance tied_dec p q : Decision (tied p q).
Proof. unfold tied. apply _. Defined.

(** What the entry stored by [_set_cache] at time [now] carries as expiry. *)
Definition expiry_of (ttl_seconds : option Z) (now : Z) : expiry :=
  if ttl_truthy ttl_seconds then At (now + default 0 ttl_seconds) else DatetimeMax.


(** The streak in the words of the specification: the number of
    consecutive games, counted from the most recent one, whose result is
    [current]. *)
Fixpoint leading_run (current : string) (games : list Game.t) : Z :=
  match games with
  | g :: games =>
      if bool_decide (Game.result g = current) then 1 + leading_run current games else 0
  | [] => 0
  end.

(** ** Sample data *)

(** A tool for the Lakers at time 0, nothing cached, no call made yet. *)
Definition fresh_tool : State := mkState 1610612747 ∅ 0 0.

(** The provider is down: every endpoint raises. *)
Definition outage : Provider :=
  mkProvider (λ _, Raises (ProviderError "timeout"))
             (λ _, Raises (ProviderError "timeout"))
             (λ _ _, Raises (ProviderError "timeout"))
             (λ _ _, Raises (ProviderError "timeout")).

Definition standings_row (rank : Z) : LeagueStandings.row :=
  LeagueStandings.mk 1610612747 "West" rank 30 20 (6 # 10) (35 # 10) "6-4" "W 2".

(** Standings that change between two calls: rank 6, and rank 7 from time 5 on. *)
Definition shifting_standings : Provider :=
  mkProvider (λ _, Raises (ProviderError "timeout"))
             (λ now, if bool_decide (now < 5) then Returns [standings_row 6]
                     else Returns [standings_row 7])
             (λ _ _, Raises (ProviderError "timeout"))
             (λ _ _, Raises (ProviderError "timeout")).

(** A loader that times out. *)
Definition failing_loader : Z → outcome pyval :=
  λ _, Raises (ProviderError "timeout").

(** A loader that answers with the rank-6 standings. *)
Definition steady_loader : Z → outcome pyval :=
  λ _, Returns (PyStandings (standings_of_row (standings_row 6))).

(** Two callers; each runs its lookup before the other has stored. *)
Definition overlapping : list event :=
  [Step 0; Step 1; Step 0; Tick 10; Step 1; Step 0; Step 1].

Definition game_row (date result : string) (points margin : Z) : LeagueGameLog.row :=
  LeagueGameLog.mk 1610612747 "0022500001" date "LAL vs. BOS" result points margin
    (47 # 100) (36 # 100) 44 27 13.

(** Five games of the team, oldest first as the league log lists them;
    most recent first they read W, W, W, L, W. *)
Definition five_games : Provider :=
  mkProvider
    (λ _, Returns [game_row "2025-11-01" "W" 112 7;
                   game_row "2025-11-03" "L" 98 (-9);
                   game_row "2025-11-05" "W" 120 15;
                   game_row "2025-11-07" "W" 105 2;
                   game_row "2025-11-09" "W" 117 11])
    (λ _, Returns [standings_row 6])
    (λ _ _, Raises (ProviderError "timeout"))
    (λ _ _, Raises (ProviderError "timeout")).

(** The season has just started: one game played. *)
Definition single_game : Provider :=
  mkProvider
    (λ _, Returns [game_row "2025-10-21" "W" 112 7])
    (λ _, Returns [standings_row 6])
    (λ _ _, Raises (ProviderError "timeout"))
    (λ _ _, Raises (ProviderError "timeout")).

Definition player (id : Z) (name : string) : Player.t :=
  Player.mk id name "G" "0" 27 "5".

Definition scored (pts : list Z) : outcome (list PlayerGameLog.row) :=
  Returns ((λ p, PlayerGameLog.mk p 5 6) <$> pts).

Definition twelve_players : list Player.t :=
  [player 1 "P1"; player 2 "P2"; player 3 "P3"; player 4 "P4";
   player 5 "P5"; player 6 "P6"; player 7 "P7"; player 8 "P8";
   player 9 "P9"; player 10 "P10"; player 11 "P11"; player 12 "P12"].

(** Twelve players.  The log of the second cannot be fetched, the third has
    not played; the first and the fourth average the same. *)
Definition mid_season : Provider :=
  mkProvider
    (λ _, Raises (ProviderError "timeout"))
    (λ _, Raises (ProviderError "timeout"))
    (λ _ _, Returns twelve_players)
    (λ id _,
       if bool_decide (id = 1) then scored [30; 28]
       else if bool_decide (id = 2) then Raises (ProviderError "timeout")
       else if bool_decide (id = 3) then scored []
       else if bool_decide (id = 4) then scored [29; 29]
       else if bool_decide (id = 6) then scored [35]
       else if bool_decide (id = 9) then scored [20; 21; 19]
       else if bool_decide (id = 11) then scored [50]
       else if bool_decide (id = 12) then scored [60]
       else scored [id]).


(** ** The constructor *)

Module Team.
Record t : Type := mk {
  id : Z;
  full_name : string
}.
End Team.

(** [DataTool.__init__]: the first team of [teams.get_teams()] carrying the
    name gives the team id; the cache starts empty.  [ValueError] is the
    right summand, with its message.  The clock and the call counter belong
    to the environment. *)
Definition __init__ (nba_teams : list Team.t) (team_name : string) (now : Z)
    : State + string :=
  match filter (λ t, Team.full_name t = team_name) nba_teams with
  | [] => inr ("Team '" +:+ team_name +:+ "' not found")
  | team :: _ => inl (mkState (Team.id team) ∅ now 0)
  end.

(** ** Shapes of cached values

    What each method stores under its key: a standings dictionary (possibly
    empty), a roster, a list of games, a list of performers. *)
Definition shape_ok (key : string) (v : pyval) : Prop :=
  (key = "standings" → v = PyEmptyDict ∨ ∃ st, v = PyStandings st)
  ∧ (key = "roster" → ∃ l, v = PyRoster l)
  ∧ (∀ n : nat, key = "games_" +:+ pretty n → ∃ l, v = PyGames l)
  ∧ (∀ n : nat, key = "performers_" +:+ pretty n → ∃ l, v = PyPerformers l).

Definition well_typed (cache : gmap string (pyval * expiry)) : Prop :=
  ∀ key v e, cache !! key = Some (v, e) → shape_ok key v.

(** ** More overlapping callers

    [n] callers in lockstep: all look up, then all load, then all store. *)
Definition lockstep (n : nat) : list event :=
  (Step <$> seq 0 n) ++ (Step <$> seq 0 n) ++ (Step <$> seq 0 n).

(** ** More sample data *)

Definition two_teams : list Team.t :=
  [Team.mk 1610612738 "Boston Celtics"; Team.mk 1610612747 "Los Angeles Lakers"].

(** Twelve games of the team, oldest first. *)
Definition twelve_games : Provider :=
  mkProvider
    (λ _, Returns [game_row "2025-10-21" "L" 101 (-4); game_row "2025-10-23" "W" 110 3;
                   game_row "2025-10-25" "W" 108 6;    game_row "2025-10-27" "L" 99 (-12);
                   game_row "2025-10-29" "W" 121 9;    game_row "2025-10-31" "W" 115 5;
                   game_row "2025-11-02" "L" 104 (-2); game_row "2025-11-04" "W" 118 14;
                   game_row "2025-11-06" "W" 109 1;    game_row "2025-11-08" "L" 97 (-8);
                   game_row "2025-11-10" "W" 113 4;    game_row "2025-11-12" "W" 125 17])
    (λ _, Returns [standings_row 6])
    (λ _ _, Returns twelve_players)
    (λ id _, scored [id]).

(** A loader that returns [None]. *)
Definition none_loader : Z → outcome pyval := λ _, Returns PyNone.

(** The league log answers (one game played), the standings endpoint and
    the others do not. *)
Definition standings_down : Provider :=
  mkProvider
    (λ _, Returns [game_row "2025-10-21" "W" 112 7])
    (λ _, Raises (ProviderError "timeout"))
    (λ _ _, Raises (ProviderError "timeout"))
    (λ _ _, Raises (ProviderError "timeout")).


(** * Properties *)

(** ** Running monadic code *)

Lemma bind_run {A B} (m : M A) (f : A → M B) (s : State) :
  (m ≫= f) s =
  match m s with
  | (Returns a, s') => f a s'
  | (Raises e, s') => (Raises e, s')
  end.
Proof. reflexivity. Qed.

Lemma bind_returns {A B} (m : M A) (f : A → M B) s a s' :
  m s = (Returns a, s') → (m ≫= f) s = f a s'.
Proof. intros H. rewrite bind_run, H. reflexivity. Qed.

Lemma bind_raises {A B} (m : M A) (f : A → M B) s e s' :
  m s = (Raises e, s') → (m ≫= f) s = (Raises e, s').
Proof. intros H. rewrite bind_run, H. reflexivity. Qed.

Lemma state_eta s : mkState (team_id s) (_cache s) (clock s) (api_calls s) = s.
Proof. destruct s; reflexivity. Qed.

Ltac run := unfold mbind, mret, M_bind, M_ret, get_cache, put_cache, datetime_now,
  self_team_id, external, lift, raise, try_except; cbn.

(** ** The cache primitives, one case at a time *)

Lemma get_cached_absent key ttl s :
  _cache s !! key = None → _get_cached key ttl s = (Returns PyNone, s).
Proof. intros H. unfold _get_cached. run. rewrite H. reflexivity. Qed.

Lemma get_cached_live key ttl s data e :
  _cache s !! key = Some (data, e) →
  ttl = None ∨ before (clock s) e = true →
  _get_cached key ttl s = (Returns data, s).
Proof.
  intros H Hlive. unfold _get_cached. run. rewrite H. cbn.
  destruct Hlive as [-> | ->]; [reflexivity |].
  rewrite orb_true_r. reflexivity.
Qed.

Lemma get_cached_expired key T s data e :
  _cache s !! key = Some (data, e) →
  before (clock s) e = false →
  _get_cached key (Some T) s =
    (Returns PyNone,
     mkState (team_id s) (delete key (_cache s)) (clock s) (api_calls s)).
Proof. intros H Hexp. unfold _get_cached. run. rewrite H. cbn. rewrite Hexp. reflexivity. Qed.

Lemma set_cache_run key data ttl s :
  _set_cache key data ttl s =
    (Returns (),
     mkState (team_id s) (<[key := (data, expiry_of ttl (clock s))]> (_cache s))
       (clock s) (api_calls s)).
Proof. unfold _set_cache, expiry_of. run. destruct (ttl_truthy ttl); reflexivity. Qed.

Lemma before_expiry_of ttl now d :
  before (now + d) (expiry_of ttl now) = true ↔
  ttl_truthy ttl = false ∨ d < default 0 ttl.
Proof.
  unfold expiry_of. destruct (ttl_truthy ttl) eqn:Ht; cbn.
  - rewrite bool_decide_eq_true. split; [intros; right; lia | intros [|]; [done | lia]].
  - split; auto.
Qed.

(** A lookup always returns, changes neither clock nor counter, and can
    only shrink the cache. *)
Lemma get_cached_total key ttl s :
  ∃ v c, _get_cached key ttl s = (Returns v, mkState (team_id s) c (clock s) (api_calls s))
         ∧ c ⊆ _cache s
         ∧ (v = PyNone → ∀ x, c !! key = Some x → x.1 = PyNone ∧ c = _cache s).
Proof.
  unfold _get_cached. run.
  destruct (_cache s !! key) as [[data e]|] eqn:H; cbn.
  - destruct (bool_decide (ttl = None) || before (clock s) e).
    + exists data, (_cache s). rewrite state_eta. split_and!; [done..|].
      intros -> x Hx. rewrite H in Hx. by simplify_eq.
    + exists PyNone, (delete key (_cache s)). split_and!; [done| apply delete_subseteq |].
      intros _ x Hx. by rewrite lookup_delete_eq in Hx.
  - exists PyNone, (_cache s). rewrite state_eta. split_and!; [done..|].
    intros _ x Hx. congruence.
Qed.

Lemma fetch_or_cache_hit key f ttl s data e :
  _cache s !! key = Some (data, e) →
  data ≠ PyNone →
  ttl = None ∨ before (clock s) e = true →
  _fetch_or_cache key f ttl s = (Returns data, s).
Proof.
  intros H Hd Hlive. unfold _fetch_or_cache.
  rewrite (bind_returns _ _ _ _ _ (get_cached_live _ _ _ _ _ H Hlive)).
  destruct data; done.
Qed.

Lemma fetch_or_cache_miss key f ttl s s1 :
  _get_cached key ttl s = (Returns PyNone, s1) →
  _fetch_or_cache key f ttl s =
    match f s1 with
    | (Returns data, s2) =>
        (Returns data,
         mkState (team_id s2) (<[key := (data, expiry_of ttl (clock s2))]> (_cache s2))
           (clock s2) (api_calls s2))
    | (Raises e, s2) => (Raises e, s2)
    end.
Proof.
  intros H. unfold _fetch_or_cache. rewrite (bind_returns _ _ _ _ _ H). cbn.
  rewrite bind_run. destruct (f s1) as [[data|e] s2]; [|reflexivity].
  rewrite (bind_returns _ _ _ _ _ (set_cache_run _ _ _ _)). reflexivity.
Qed.

Lemma get_cached_value key ttl s v s' :
  _get_cached key ttl s = (Returns v, s') →
  v ≠ PyNone →
  s' = s ∧ ∃ e, _cache s !! key = Some (v, e) ∧ (ttl = None ∨ before (clock s) e = true).
Proof.
  unfold _get_cached. run.
  destruct (_cache s !! key) as [[data e]|] eqn:H; cbn; [|congruence].
  destruct (bool_decide (ttl = None)) eqn:Httl; cbn.
  - intros [= -> ->] _. rewrite bool_decide_eq_true in Httl. eauto.
  - destruct (before (clock s) e) eqn:Hb; [|congruence].
    intros [= -> ->] _. eauto.
Qed.

(** A call that returned a value is answered from the cache when it is
    repeated at once. *)
Lemma fetch_or_cache_again key f ttl s v s' :
  _fetch_or_cache key f ttl s = (Returns v, s') →
  v ≠ PyNone →
  (ttl_truthy ttl = true → 0 < default 0 ttl) →
  _fetch_or_cache key f ttl s' = (Returns v, s').
Proof.
  intros Hrun Hv Httl.
  destruct (get_cached_total key ttl s) as (v0 & c & Hget & _).
  assert (v0 = PyNone ∨ v0 ≠ PyNone) as [-> | Hv0]
    by (destruct v0; (by left) || (by right)).
  - rewrite (fetch_or_cache_miss _ _ _ _ _ Hget) in Hrun.
    destruct (f _) as [[data|e] s2]; [|discriminate].
    injection Hrun as -> <-.
    eapply fetch_or_cache_hit; [cbn; apply lookup_insert_eq | done |].
    right. cbn. rewrite <- (Z.add_0_r (clock s2)) at 1.
    apply before_expiry_of. destruct (ttl_truthy ttl); [right; auto | by left].
  - destruct (get_cached_value _ _ _ _ _ Hget Hv0) as (Hs & e & Hk & Hlive).
    rewrite (fetch_or_cache_hit _ f _ _ _ _ Hk Hv0 Hlive) in Hrun.
    injection Hrun as -> ->. by apply (fetch_or_cache_hit _ f _ _ _ _ Hk).
Qed.

Lemma fetch_or_cache_value key f ttl s v s' :
  _fetch_or_cache key f ttl s = (Returns v, s') →
  (∀ s1 s2, f s1 = (Returns v, s2) → v ≠ PyNone) →
  v ≠ PyNone.
Proof.
  intros Hrun Hf. destruct (get_cached_total key ttl s) as (v0 & c & Hget & _).
  revert Hrun. unfold _fetch_or_cache. rewrite (bind_returns _ _ _ _ _ Hget).
  destruct (is_not_None v0) eqn:Hv0.
  - intros [= <- <-]. by destruct v0.
  - rewrite bind_run. destruct (f _) as [[data|e] s2] eqn:Hfs; [|discriminate].
    rewrite (bind_returns _ _ _ _ _ (set_cache_run _ _ _ _)).
    intros [= <- <-]. eauto.
Qed.

Lemma get_cached_no_value key ttl s :
  (∀ x, _cache s !! key = Some x → x.1 = PyNone) →
  ∃ c, _get_cached key ttl s =
         (Returns PyNone, mkState (team_id s) c (clock s) (api_calls s)).
Proof.
  intros Hnone. unfold _get_cached. run.
  destruct (_cache s !! key) as [[data e]|] eqn:H; cbn;
    [|exists (_cache s); by rewrite state_eta].
  specialize (Hnone _ eq_refl). cbn in Hnone. subst data.
  destruct (bool_decide (ttl = None) || before (clock s) e);
    [exists (_cache s); by rewrite state_eta | by eexists].
Qed.

(** ** Expiry of entries *)

Lemma read_after_store key data ttl s d :
  let s1 := (_set_cache key data ttl s).2 in
  _cache (sleep d s1) !! key = Some (data, expiry_of ttl (clock s))
  ∧ clock (sleep d s1) = clock s + d.
Proof. cbn. rewrite set_cache_run. cbn. by rewrite lookup_insert_eq. Qed.

(** An entry stored with a non-zero TTL of [T] seconds is returned as it
    was stored while fewer than [T] seconds have passed; the TTL given to
    the read plays no part unless it is [None]. *)
Lemma ttl_entry_fresh key data T ttl s d :
  T ≠ 0 → d < T →
  let s1 := (_set_cache key data (Some T) s).2 in
  _get_cached key ttl (sleep d s1) = (Returns data, sleep d s1).
Proof.
  intros HT Hd s1. destruct (read_after_store key data (Some T) s d) as [Hk Hc].
  subst s1. apply (get_cached_live _ _ _ _ _ Hk). right. rewrite Hc.
  apply before_expiry_of. right. done.
Qed.

(** From [T] seconds on, a read with a finite TTL reports it absent and
    deletes it. *)
Lemma ttl_entry_expired key data T T' s d :
  T ≠ 0 → T ≤ d →
  let s1 := (_set_cache key data (Some T) s).2 in
  ∃ s2, _get_cached key (Some T') (sleep d s1) = (Returns PyNone, s2)
        ∧ _cache s2 = delete key (_cache s1)
        ∧ _cache s2 !! key = None.
Proof.
  intros HT Hd s1. destruct (read_after_store key data (Some T) s d) as [Hk Hc].
  subst s1. eexists. split; [|split].
  - apply (get_cached_expired _ _ _ _ _ Hk). rewrite Hc.
    apply not_true_is_false. rewrite before_expiry_of. cbn.
    intros [H|H]; [|lia]. apply negb_false_iff, bool_decide_eq_true in H. done.
  - reflexivity.
  - cbn. apply lookup_delete_eq.
Qed.

(** An entry stored without TTL is served at any time, as intended for
    season-immutable data. *)
Lemma permanent_entry_always_served key data s d :
  _get_cached key None (sleep d (_set_cache key data None s).2)
  = (Returns data, sleep d (_set_cache key data None s).2).
Proof.
  destruct (read_after_store key data None s d) as [Hk _].
  apply (get_cached_live _ _ _ _ _ Hk). by left.
Qed.

(** C6, as amended.  For every key, value and non-zero TTL of [T] seconds,
    an entry stored at time [t0] (the clock of [s]) is returned unchanged by
    a read with a finite TTL at every time [t0 + d] with [d < T]; at every
    time with [T ≤ d] the read reports it absent and has removed it from
    the store. *)
Theorem ttl_entry_lifetime key data T T' s d :
  T ≠ 0 →
  let s1 := (_set_cache key data (Some T) s).2 in
  (d < T → _get_cached key (Some T') (sleep d s1) = (Returns data, sleep d s1))
  ∧ (T ≤ d →
       ∃ s2, _get_cached key (Some T') (sleep d s1) = (Returns PyNone, s2)
             ∧ _cache s2 = delete key (_cache s1)
             ∧ _cache s2 !! key = None).
Proof.
  intros HT s1. split; intros Hd.
  - by apply ttl_entry_fresh.
  - by apply ttl_entry_expired.
Qed.

(** Standings stored for 300 seconds: served after 299 seconds, gone after
    300. *)
Lemma ttl_entry_lifetime_witness :
  let s1 := (_set_cache "standings" PyEmptyDict (Some 300) fresh_tool).2 in
  300 ≠ 0
  ∧ _get_cached "standings" (Some 300) (sleep 299 s1) = (Returns PyEmptyDict, sleep 299 s1)
  ∧ ∃ s2, _get_cached "standings" (Some 300) (sleep 300 s1) = (Returns PyNone, s2)
          ∧ _cache s2 !! "standings" = None.
Proof.
  assert (H300 : 300 ≠ 0) by discriminate.
  split; [exact H300|]. split.
  - apply (ttl_entry_lifetime "standings" PyEmptyDict 300 300 fresh_tool 299 H300). lia.
  - destruct (ttl_entry_lifetime "standings" PyEmptyDict 300 300 fresh_tool 300 H300)
      as [_ Hgone].
    destruct Hgone as (s2 & Hrun & _ & Hk); [lia|]. by exists s2.
Defined.

(** An entry stored with a TTL of 0 seconds gets [datetime.max] as its
    expiry ([if ttl_seconds] is false for 0 as it is for [None]): a read at
    any time returns it and it stays in the store. *)
Lemma ttl_zero_entry_never_expires key data s d :
  let s1 := (_set_cache key data (Some 0) s).2 in
  _cache s1 !! key = Some (data, DatetimeMax)
  ∧ _get_cached key (Some 0) (sleep d s1) = (Returns data, sleep d s1)
  ∧ _cache (sleep d s1) !! key = Some (data, DatetimeMax).
Proof.
  intros s1. destruct (read_after_store key data (Some 0) s d) as [Hk Hc].
  subst s1. split; [exact Hk|]. split; [|exact Hk].
  apply (get_cached_live _ _ _ _ _ Hk). by right.
Qed.

(** C6 as stated fails for the TTL of 0 seconds: standings stored with it
    at time 0 are still returned, and still stored, an hour later, whereas
    the claim has them absent and removed from 0 seconds on. *)
Lemma ttl_zero_entry_served_after_an_hour :
  let s1 := (_set_cache "standings" PyEmptyDict (Some 0) fresh_tool).2 in
  clock (sleep 3600 s1) - clock fresh_tool = 3600
  ∧ _get_cached "standings" (Some 0) (sleep 3600 s1) = (Returns PyEmptyDict, sleep 3600 s1)
  ∧ _cache (sleep 3600 s1) !! "standings" = Some (PyEmptyDict, DatetimeMax).
Proof. vm_compute. split_and!; reflexivity. Qed.

(** ** A loader that fails *)














(** ** One load per miss? *)

Lemma sleep_0 s : sleep 0 s = s.
Proof. unfold sleep. rewrite Z.add_0_r. apply state_eta. Qed.

(** A caller that runs its three statements without interruption is a call
    of [_fetch_or_cache]. *)
Lemma lone_caller_is_fetch_or_cache key f ttl s :
  run_schedule key f ttl [Step 0; Step 0; Step 0] ([AtLookup], s) =
  ([Finished (_fetch_or_cache key f ttl s).1], (_fetch_or_cache key f ttl s).2).
Proof.
  destruct (get_cached_total key ttl s) as (v & c & Hget & _).
  unfold run_schedule, _fetch_or_cache. cbn. rewrite bind_run, Hget.
  destruct (is_not_None v); cbn; [reflexivity|].
  rewrite bind_run. destruct (f _) as [[data|e] s2]; cbn; [|reflexivity].
  rewrite bind_run, set_cache_run. reflexivity.
Qed.

Lemma sumZ_cons x l : sumZ (x :: l) = x + sumZ l.
Proof. reflexivity. Qed.

Lemma sumZ_nonneg l : Forall (λ d, 0 ≤ d) l → 0 ≤ sumZ l.
Proof. induction 1; rewrite ?sumZ_cons; [done | lia]. Qed.

(** While an entry holding a value is live, calls are served from it. *)
Lemma repeated_calls_hits key f ttl v t0 delays : ∀ s,
  _cache s !! key = Some (v, expiry_of ttl t0) →
  v ≠ PyNone →
  t0 ≤ clock s →
  Forall (λ d, 0 ≤ d) delays →
  (ttl_truthy ttl = true → clock s - t0 + sumZ delays < default 0 ttl) →
  ∃ s', repeated_calls key f ttl delays s = (replicate (length delays) (Returns v), s')
        ∧ api_calls s' = api_calls s.
Proof.
  induction delays as [|d delays IH]; intros s Hk Hv Ht Hpos Hfresh.
  - by exists s.
  - apply Forall_cons in Hpos as [Hd Hpos]. rewrite sumZ_cons in Hfresh.
    pose proof (sumZ_nonneg _ Hpos) as Hsum.
    assert (Hhit : _fetch_or_cache key f ttl (sleep d s) = (Returns v, sleep d s)).
    { apply (fetch_or_cache_hit key f ttl (sleep d s) v _ Hk Hv). right. cbn.
      replace (clock s + d) with (t0 + (clock s - t0 + d)) by lia.
      apply before_expiry_of.
      destruct (ttl_truthy ttl); [right; lia | by left]. }
    destruct (IH (sleep d s)) as (s' & Hrest & Hcalls); [done | done | cbn; lia | done | |].
    { cbn. intros H. specialize (Hfresh H). lia. }
    exists s'. cbn [repeated_calls]. rewrite Hhit, Hrest. done.
Qed.

(** C9, as amended.  The code has no single-flight mechanism; what does hold
    is the sequential case: when calls for a missing or expired key are made
    one after another, the first one invokes the loader, and if that load
    returns a value, every call made before the new entry expires is served
    from it, so there is one loader invocation and all callers receive the
    same result. *)
Theorem sequential_calls_load_once key ttl (f : Z → outcome pyval) v s delays :
  (_get_cached key ttl s).1 = Returns PyNone →
  f (clock s) = Returns v →
  v ≠ PyNone →
  Forall (λ d, 0 ≤ d) delays →
  (ttl_truthy ttl = true → sumZ delays < default 0 ttl) →
  ∃ s', repeated_calls key (external f) ttl (0 :: delays) s
          = (replicate (S (length delays)) (Returns v), s')
        ∧ api_calls s' = S (api_calls s).
Proof.
  intros Hmiss Hf Hv Hpos Hfresh.
  destruct (get_cached_total key ttl s) as (v0 & c & Hget & _).
  rewrite Hget in Hmiss. cbn in Hmiss. injection Hmiss as ->.
  cbn [repeated_calls]. rewrite sleep_0, (fetch_or_cache_miss _ _ _ _ _ Hget).
  unfold external at 1. cbn. rewrite Hf.
  set (s1 := mkState _ _ _ _).
  destruct (repeated_calls_hits key (external f) ttl v (clock s) delays s1)
    as (s' & Hrest & Hcalls).
  - subst s1. cbn. by rewrite lookup_insert_eq.
  - done.
  - done.
  - done.
  - subst s1. cbn. intros H. specialize (Hfresh H). lia.
  - exists s'. rewrite Hrest. done.
Qed.

(** Four calls within 299 seconds on a fresh tool: one load, four equal
    results. *)
Lemma sequential_calls_load_once_witness :
  (_get_cached "standings" (Some 300) fresh_tool).1 = Returns PyNone
  ∧ steady_loader (clock fresh_tool)
    = Returns (PyStandings (standings_of_row (standings_row 6)))
  ∧ Forall (λ d, 0 ≤ d) [100; 100; 99]
  ∧ ∃ s', repeated_calls "standings" (external steady_loader) (Some 300)
            [0; 100; 100; 99] fresh_tool
          = (replicate 4 (Returns (PyStandings (standings_of_row (standings_row 6)))), s')
          ∧ api_calls s' = 1%nat.
Proof.
  assert (Hpos : Forall (λ d, 0 ≤ d) [100; 100; 99]).
  { repeat constructor; lia. }
  split; [reflexivity|]. split; [reflexivity|]. split; [exact Hpos|].
  apply (sequential_calls_load_once "standings" (Some 300) steady_loader
           (PyStandings (standings_of_row (standings_row 6))) fresh_tool [100; 100; 99]).
  - reflexivity.
  - reflexivity.
  - discriminate.
  - exact Hpos.
  - intros _. cbn. lia.
Defined.

(** C9 as stated fails: two callers for the same missing key whose bodies
    overlap both miss, both invoke the loader, and, the provider's answer
    having changed in between, receive different results. *)
Lemma overlapping_callers_load_twice :
  let final := run_schedule "standings" (get_standings_fetch shifting_standings)
                 (Some 300) overlapping ([AtLookup; AtLookup], fresh_tool) in
  final.1 = [Finished (Returns (PyStandings (standings_of_row (standings_row 6))));
             Finished (Returns (PyStandings (standings_of_row (standings_row 7))))]
  ∧ api_calls final.2 = 2%nat
  ∧ standings_of_row (standings_row 6) ≠ standings_of_row (standings_row 7).
Proof. vm_compute. split_and!; [reflexivity | reflexivity | discriminate]. Qed.

(** ** Derivations from the recent games *)

Lemma get_recent_games_again api n s v s' :
  get_recent_games api n s = (Returns v, s') →
  v ≠ PyNone →
  get_recent_games api n s' = (Returns v, s').
Proof. intros H Hv. by apply (fetch_or_cache_again _ _ _ _ _ _ H Hv). Qed.

(** What [get_team_win_streak] computes on a non-empty list: the number of
    games of the whole window whose result equals the most recent one. *)
Lemma win_streak_run api s s' g0 rest :
  get_recent_games api 20 s = (Returns (PyGames (g0 :: rest)), s') →
  get_team_win_streak api s =
    (Returns (Streak.mk
       (if bool_decide (Game.result g0 = "W") then "winning" else "losing")
       (count_if (λ g, Game.result g = Game.result g0) (g0 :: rest))
       (Some (count_if (λ g, Game.result g = "W") (take 10 (g0 :: rest)),
              10 - count_if (λ g, Game.result g = "W") (take 10 (g0 :: rest))))),
     s').
Proof.
  intros H. unfold get_team_win_streak. rewrite (bind_returns _ _ _ _ _ H).
  change (negb (truthy (PyGames (g0 :: rest)))) with false. cbv beta iota zeta.
  assert (Hsum : ∀ l : list Game.t,
    sumZ ((λ g, if bool_decide (Game.result g = Game.result g0) then 1 else 0) <$> l)
    = count_if (λ g, Game.result g = Game.result g0) l).
  { induction l as [|g l IH]; [reflexivity|].
    unfold count_if in *. rewrite fmap_cons, filter_cons, sumZ_cons, IH.
    destruct (decide (Game.result g = Game.result g0)) as [E|E].
    - by rewrite bool_decide_eq_true_2.
    - by rewrite bool_decide_eq_false_2. }
  rewrite Hsum. reflexivity.
Qed.

Lemma count_if_cons {A} (P : A → Prop) `{!∀ x, Decision (P x)} x l :
  count_if P (x :: l) = (if decide (P x) then 1 else 0) + count_if P l.
Proof.
  unfold count_if. rewrite filter_cons. destruct (decide (P x)); reflexivity.
Qed.

Lemma count_if_nonneg {A} (P : A → Prop) `{!∀ x, Decision (P x)} l :
  0 ≤ count_if P l.
Proof.
  induction l as [|x l IH]; [done|]. rewrite count_if_cons.
  destruct (decide (P x)); lia.
Qed.

(** The run at the head of the window never exceeds what the code counts. *)
Lemma leading_run_le_count current games :
  leading_run current games ≤ count_if (λ g, Game.result g = current) games.
Proof.
  induction games as [|g games IH]; [done|].
  rewrite count_if_cons. cbn [leading_run].
  pose proof (count_if_nonneg (λ g, Game.result g = current) games).
  destruct (decide (Game.result g = current)).
  - rewrite bool_decide_eq_true_2 by done. lia.
  - rewrite bool_decide_eq_false_2 by done. lia.
Qed.

(** C1, at the input where the code departs from it.  The five most recent
    games read W, W, W, L, W; three consecutive games match the most recent
    result, yet the reported streak length is 4: the sum in
    [get_team_win_streak] runs over the whole window and also counts the
    win that lies behind the loss. *)
Theorem streak_counts_every_matching_game :
  ∃ games,
    (get_recent_games five_games 20 fresh_tool).1 = Returns (PyGames games)
    ∧ Game.result <$> games = ["W"; "W"; "W"; "L"; "W"]
    ∧ leading_run "W" games = 3
    ∧ (get_team_win_streak five_games fresh_tool).1
      = Returns (Streak.mk "winning" 4 (Some (4, 6))).
Proof.
  eexists. split; [vm_compute; reflexivity|].
  vm_compute. split_and!; reflexivity.
Qed.

(** C3, where the code departs from it.  With one to ten games the older
    half [games[10:]] is empty and [statistics.mean] raises on it: the
    analysis fails instead of returning a comparison. *)
Theorem trends_fail_on_ten_or_fewer_games api s s' games :
  get_recent_games api 20 s = (Returns (PyGames games), s') →
  (1 ≤ length games ≤ 10)%nat →
  analyze_performance_trends api s = (Raises StatisticsError, s').
Proof.
  intros H [Hlo Hhi]. unfold analyze_performance_trends.
  rewrite (bind_returns _ _ _ _ _ H).
  destruct games as [|g games]; [cbn in Hlo; lia|].
  change (negb (truthy (PyGames (g :: games)))) with false. cbv beta iota zeta.
  rewrite (drop_ge (g :: games) 10) by done.
  reflexivity.
Qed.

(** One game played: the trend analysis raises. *)
Lemma trends_fail_on_ten_or_fewer_games_witness :
  get_recent_games single_game 20 fresh_tool
    = (Returns (PyGames [game_of_row (game_row "2025-10-21" "W" 112 7)]),
       (get_recent_games single_game 20 fresh_tool).2)
  ∧ analyze_performance_trends single_game fresh_tool
    = (Raises StatisticsError, (get_recent_games single_game 20 fresh_tool).2).
Proof.
  assert (H : get_recent_games single_game 20 fresh_tool
    = (Returns (PyGames [game_of_row (game_row "2025-10-21" "W" 112 7)]),
       (get_recent_games single_game 20 fresh_tool).2)) by (vm_compute; reflexivity).
  split; [exact H|].
  apply (trends_fail_on_ten_or_fewer_games single_game fresh_tool _ _ H).
  cbn. lia.
Defined.

(** From eleven games on, both halves are non-empty and the analysis
    returns a comparison. *)
Lemma trends_return_from_eleven_games api s s' games :
  get_recent_games api 20 s = (Returns (PyGames games), s') →
  (11 ≤ length games)%nat →
  ∃ t, analyze_performance_trends api s = (Returns (Some t), s').
Proof.
  intros H Hlen. unfold analyze_performance_trends.
  rewrite (bind_returns _ _ _ _ _ H).
  destruct games as [|g games]; [cbn in Hlen; lia|].
  change (negb (truthy (PyGames (g :: games)))) with false. cbv beta iota zeta.
  destruct (drop 10 (g :: games)) as [|g' older] eqn:Hdrop.
  { apply (f_equal length) in Hdrop. rewrite length_drop in Hdrop. cbn in *. lia. }
  eexists. reflexivity.
Qed.

(** C10.  On a list holding exactly one game, the three means are computed
    and [statistics.stdev] then raises: [get_performance_metrics] fails. *)
Theorem metrics_fail_on_single_game api n s s' g :
  get_recent_games api n s = (Returns (PyGames [g]), s') →
  get_performance_metrics api n s = (Raises StatisticsError, s').
Proof.
  intros H. unfold get_performance_metrics.
  rewrite (bind_returns _ _ _ _ _ H). reflexivity.
Qed.

(** One game played: the metrics raise. *)
Lemma metrics_fail_on_single_game_witness :
  get_recent_games single_game 20 fresh_tool
    = (Returns (PyGames [game_of_row (game_row "2025-10-21" "W" 112 7)]),
       (get_recent_games single_game 20 fresh_tool).2)
  ∧ get_performance_metrics single_game 20 fresh_tool
    = (Raises StatisticsError, (get_recent_games single_game 20 fresh_tool).2).
Proof.
  assert (H : get_recent_games single_game 20 fresh_tool
    = (Returns (PyGames [game_of_row (game_row "2025-10-21" "W" 112 7)]),
       (get_recent_games single_game 20 fresh_tool).2)) by (vm_compute; reflexivity).
  split; [exact H|].
  exact (metrics_fail_on_single_game single_game 20 fresh_tool _ _ H).
Defined.

(** With two games or more every statistic is defined. *)
Lemma metrics_return_from_two_games api n s s' g1 g2 games :
  get_recent_games api n s = (Returns (PyGames (g1 :: g2 :: games)), s') →
  ∃ m, get_performance_metrics api n s = (Returns m, s').
Proof.
  intros H. unfold get_performance_metrics.
  rewrite (bind_returns _ _ _ _ _ H). eexists. reflexivity.
Qed.

(** ** Competitive context *)

(** A snapshot that sits unexpired in the cache is what [get_standings]
    returns, without any external call. *)
Lemma cached_standings_are_served api s st e :
  _cache s !! "standings" = Some (PyStandings st, e) →
  before (clock s) e = true →
  get_standings api s = (Returns (PyStandings st), s).
Proof.
  intros Hk Hlive. unfold get_standings.
  apply (fetch_or_cache_hit _ _ _ _ _ _ Hk); [done | by right].
Qed.

(** C5.  For the standings snapshot that [get_standings] hands over (served
    from the cache or just loaded into it), the tier and playoff status
    follow the inclusive rank thresholds 6 and 10; rank, win percentage and
    games back are copied. *)
Theorem competitive_tier_by_rank api s s' st :
  get_standings api s = (Returns (PyStandings st), s') →
  ∃ tier status,
    get_competitive_context api s
      = (Returns (CompetitiveContext.mk (Standings.league_rank st) tier status
                    (Standings.win_pct st) (Standings.games_back st)), s')
    ∧ (Standings.league_rank st ≤ 6 →
         tier = "championship_contender" ∧ status = "guaranteed")
    ∧ (7 ≤ Standings.league_rank st ≤ 10 →
         tier = "play_in_team" ∧ status = "likely")
    ∧ (11 ≤ Standings.league_rank st →
         tier = "rebuild_mode" ∧ status = "unlikely").
Proof.
  intros H. unfold get_competitive_context.
  rewrite (bind_returns _ _ _ _ _ H). cbn [truthy negb].
  destruct (decide (Standings.league_rank st ≤ 6)) as [H6|H6].
  - rewrite (bool_decide_eq_true_2 _ H6).
    eexists _, _. split; [reflexivity|]. split_and!; [done | lia | lia].
  - rewrite (bool_decide_eq_false_2 _ H6).
    destruct (decide (Standings.league_rank st ≤ 10)) as [H10|H10].
    + rewrite (bool_decide_eq_true_2 _ H10).
      eexists _, _. split; [reflexivity|]. split_and!; [lia | done | lia].
    + rewrite (bool_decide_eq_false_2 _ H10).
      eexists _, _. split; [reflexivity|]. split_and!; [lia | lia | done].
Qed.

(** A snapshot of rank 6 sits in the cache, 100 seconds old. *)
Lemma competitive_tier_by_rank_witness :
  let s := sleep 100 (get_standings five_games fresh_tool).2 in
  _cache s !! "standings" = Some (PyStandings (standings_of_row (standings_row 6)), At 300)
  ∧ get_standings outage s = (Returns (PyStandings (standings_of_row (standings_row 6))), s)
  ∧ (get_competitive_context outage s).1
    = Returns (CompetitiveContext.mk 6 "championship_contender" "guaranteed"
                 (6 # 10) (35 # 10)).
Proof.
  set (s := sleep 100 _).
  assert (H : get_standings outage s
              = (Returns (PyStandings (standings_of_row (standings_row 6))), s))
    by (vm_compute; reflexivity).
  split; [vm_compute; reflexivity|]. split; [exact H|].
  destruct (competitive_tier_by_rank outage s s _ H) as (tier & status & Hrun & H6 & _).
  rewrite Hrun. destruct H6 as [-> ->]; [cbn; lia|]. reflexivity.
Defined.

(** The four boundary ranks named by the specification. *)
Lemma tier_boundaries :
  ((λ rank, (get_competitive_context
               (mkProvider (λ _, Returns []) (λ _, Returns [standings_row rank])
                  (λ _ _, Returns []) (λ _ _, Returns [])) fresh_tool).1) <$> [6; 7; 10; 11])
  = (λ '(rank, tier, status),
       Returns (CompetitiveContext.mk rank tier status (6 # 10) (35 # 10)))
    <$> [(6, "championship_contender", "guaranteed"); (7, "play_in_team", "likely");
         (10, "play_in_team", "likely"); (11, "rebuild_mode", "unlikely")].
Proof. vm_compute. reflexivity. Qed.

(** ** Degenerate inputs *)

(** A provider failure reaches the derivations as an empty value. *)
Lemma outage_gives_empty_games api n s e :
  _cache s !! ("games_" +:+ pretty n) = None →
  league_game_log api (clock s) = Raises e →
  (get_recent_games api n s).1 = Returns (PyGames []).
Proof.
  intros Hk He. unfold get_recent_games.
  rewrite (fetch_or_cache_miss _ _ _ _ _ (get_cached_absent _ _ _ Hk)).
  unfold get_recent_games_fetch, try_except. rewrite bind_run.
  unfold external. rewrite He. reflexivity.
Qed.

Lemma outage_gives_empty_standings api s e :
  _cache s !! "standings" = None →
  league_standings api (clock s) = Raises e →
  (get_standings api s).1 = Returns PyEmptyDict.
Proof.
  intros Hk He. unfold get_standings.
  rewrite (fetch_or_cache_miss _ _ _ _ _ (get_cached_absent _ _ _ Hk)).
  unfold get_standings_fetch, try_except. rewrite bind_run.
  unfold external. rewrite He. reflexivity.
Qed.

(** The loader of the games always returns a list of games. *)
Lemma get_recent_games_fetch_total api n s :
  ∃ l s', get_recent_games_fetch api n s = (Returns (PyGames l), s').
Proof.
  unfold get_recent_games_fetch, try_except. rewrite bind_run.
  unfold external. destruct (league_game_log api (clock s)) as [df|e].
  - cbn. rewrite bind_run. unfold self_team_id. cbn.
    case_bool_decide; by eexists _, _.
  - by eexists _, _.
Qed.

Lemma get_recent_games_value api n s v s' :
  get_recent_games api n s = (Returns v, s') → v ≠ PyNone.
Proof.
  intros H. apply (fetch_or_cache_value _ _ _ _ _ _ H). intros s1 s2 Hf.
  destruct (get_recent_games_fetch_total api n s1) as (l & s3 & Hl).
  rewrite Hl in Hf. by injection Hf as <- _.
Qed.

(** C8.  Each derivation answers an empty primitive of its own with its
    default and raises nothing, whatever the other primitives hold: empty
    games give zero-valued metrics with consistency "unknown"; absent
    standings give the neutral context (rank 15, tier "unknown", win
    percentage one half, 0 games back); an empty 20-game window gives an
    unknown streak of length 0, no trend and the neutral momentum score 50;
    an empty roster gives no performers. *)
Theorem degenerate_inputs_give_defaults api n k s :
  (∀ games sn,
     get_recent_games api n s = (Returns games, sn) → truthy games = false →
     get_performance_metrics api n s
     = (Returns (PerformanceMetrics.mk 0 0 0 0 0 0 "unknown"), sn))
  ∧ (∀ standings ss,
       get_standings api s = (Returns standings, ss) → truthy standings = false →
       get_competitive_context api s
       = (Returns (CompetitiveContext.mk 15 "unknown" "unknown" (1 # 2) 0), ss))
  ∧ (∀ games20 s20,
       get_recent_games api 20 s = (Returns games20, s20) → truthy games20 = false →
       get_team_win_streak api s = (Returns (Streak.mk "unknown" 0 None), s20)
       ∧ analyze_performance_trends api s = (Returns None, s20)
       ∧ calculate_momentum_score api s
         = (Returns (Momentum.mk (500 # 10) "neutral" "stable"), s20))
  ∧ (∀ roster sr,
       get_team_roster api s = (Returns roster, sr) → truthy roster = false →
       get_top_performers_fetch api k s = (Returns (PyPerformers []), sr)).
Proof.
  split_and!.
  - intros games sn Hn Hgames. unfold get_performance_metrics.
    rewrite (bind_returns _ _ _ _ _ Hn), Hgames. reflexivity.
  - intros standings ss Hs Hstandings. unfold get_competitive_context.
    rewrite (bind_returns _ _ _ _ _ Hs), Hstandings. reflexivity.
  - intros games20 s20 H20 Hgames20.
    assert (Hstreak : ∀ s0 s1, get_recent_games api 20 s0 = (Returns games20, s1) →
              get_team_win_streak api s0 = (Returns (Streak.mk "unknown" 0 None), s1)).
    { intros s0 s1 H. unfold get_team_win_streak.
      rewrite (bind_returns _ _ _ _ _ H), Hgames20. reflexivity. }
    assert (Htrend : analyze_performance_trends api s = (Returns None, s20)).
    { unfold analyze_performance_trends.
      rewrite (bind_returns _ _ _ _ _ H20), Hgames20. reflexivity. }
    split_and!; [by apply Hstreak | exact Htrend |].
    unfold calculate_momentum_score.
    rewrite (bind_returns _ _ _ _ _ Htrend).
    pose proof (get_recent_games_value _ _ _ _ _ H20) as Hv.
    rewrite (bind_returns _ _ _ _ _
               (Hstreak _ _ (get_recent_games_again _ _ _ _ _ H20 Hv))).
    reflexivity.
  - intros roster sr Hr Hroster. unfold get_top_performers_fetch, try_except.
    rewrite (bind_returns _ _ _ _ _ Hr).
    destruct roster as [| | | l | l | l]; try discriminate Hroster; try reflexivity.
    cbn in Hroster. apply negb_false_iff, bool_decide_eq_true in Hroster as ->.
    reflexivity.
Qed.

(** Two tools.  In the first the game played is cached and the standings
    endpoint is down: the games are still served and the context is the
    neutral one.  In the second the provider is down altogether: every
    derivation answers with its default. *)
Lemma degenerate_inputs_give_defaults_witness :
  (let s := (get_recent_games standings_down 20 fresh_tool).2 in
   get_recent_games standings_down 20 s
   = (Returns (PyGames [game_of_row (game_row "2025-10-21" "W" 112 7)]), s)
   ∧ (get_standings standings_down s).1 = Returns PyEmptyDict
   ∧ (get_competitive_context standings_down s).1
     = Returns (CompetitiveContext.mk 15 "unknown" "unknown" (1 # 2) 0))
  ∧ ((get_performance_metrics outage 20 fresh_tool).1
     = Returns (PerformanceMetrics.mk 0 0 0 0 0 0 "unknown")
     ∧ (get_competitive_context outage fresh_tool).1
       = Returns (CompetitiveContext.mk 15 "unknown" "unknown" (1 # 2) 0)
     ∧ (get_team_win_streak outage fresh_tool).1 = Returns (Streak.mk "unknown" 0 None)
     ∧ (analyze_performance_trends outage fresh_tool).1 = Returns None
     ∧ (calculate_momentum_score outage fresh_tool).1
       = Returns (Momentum.mk (500 # 10) "neutral" "stable")
     ∧ (get_top_performers_fetch outage 5 fresh_tool).1 = Returns (PyPerformers [])).
Proof.
  split.
  - set (s := (get_recent_games standings_down 20 fresh_tool).2). cbn zeta.
    destruct (degenerate_inputs_give_defaults standings_down 20 5 s)
      as (_ & Hc & _).
    assert (Hs : get_standings standings_down s
      = (Returns PyEmptyDict, (get_standings standings_down s).2))
      by (vm_compute; reflexivity).
    split_and!; [vm_compute; reflexivity | by rewrite Hs |].
    by rewrite (Hc _ _ Hs eq_refl).
  - destruct (degenerate_inputs_give_defaults outage 20 5 fresh_tool)
      as (Hm & Hc & H20 & Hp).
    assert (Hg : get_recent_games outage 20 fresh_tool
      = (Returns (PyGames []), (get_recent_games outage 20 fresh_tool).2))
      by (vm_compute; reflexivity).
    assert (Hs : get_standings outage fresh_tool
      = (Returns PyEmptyDict, (get_standings outage fresh_tool).2))
      by (vm_compute; reflexivity).
    assert (Hr : get_team_roster outage fresh_tool
      = (Returns (PyRoster []), (get_team_roster outage fresh_tool).2))
      by (vm_compute; reflexivity).
    destruct (H20 _ _ Hg eq_refl) as (Hk & Ht & Hmo).
    split_and!.
    + by rewrite (Hm _ _ Hg eq_refl).
    + by rewrite (Hc _ _ Hs eq_refl).
    + by rewrite Hk.
    + by rewrite Ht.
    + by rewrite Hmo.
    + by rewrite (Hp _ _ Hr eq_refl).
Defined.

(** ** Rounding and the momentum score *)

Lemma round_half_even_between (q : Q) (a b : Z) :
  (inject_Z a <= q)%Q → (q <= inject_Z b)%Q →
  a ≤ round_half_even q ≤ b.
Proof.
  intros Ha Hb.
  assert (Hfa : a ≤ Qfloor q).
  { rewrite <- (Qfloor_Z a). by apply Qfloor_resp_le. }
  assert (Hfb : Qfloor q ≤ b).
  { rewrite <- (Qfloor_Z b). by apply Qfloor_resp_le. }
  assert (Hup : (1 # 2 <= q - inject_Z (Qfloor q))%Q → Qfloor q + 1 ≤ b).
  { intros Hhalf. cut (Qfloor q < b); [lia|].
    rewrite Zlt_Qlt. eapply Qlt_le_trans; [|exact Hb].
    apply (Qplus_lt_l _ _ (- inject_Z (Qfloor q))).
    rewrite Qplus_opp_r. eapply Qlt_le_trans; [|exact Hhalf]. reflexivity. }
  unfold round_half_even.
  destruct (Qcompare (q - inject_Z (Qfloor q)) (1 # 2)) eqn:Hc.
  - apply Qeq_alt in Hc. destruct (Z.even (Qfloor q)); [lia|].
    split; [lia|]. apply Hup. rewrite Hc. apply Qle_refl.
  - lia.
  - apply Qgt_alt in Hc. split; [lia|]. apply Hup. by apply Qlt_le_weak.
Qed.

Lemma pow10_pos n : 0 < 10 ^ Z.of_nat n.
Proof. apply Z.pow_pos_nonneg; lia. Qed.

(** Rounding to [ndigits] decimals does not leave an interval with integer
    ends. *)
Lemma py_round_between (q : Q) (ndigits : nat) (a b : Z) :
  (inject_Z a <= q)%Q → (q <= inject_Z b)%Q →
  (inject_Z a <= py_round q ndigits)%Q ∧ (py_round q ndigits <= inject_Z b)%Q.
Proof.
  intros Ha Hb. unfold py_round.
  pose proof (pow10_pos ndigits) as Hpos.
  set (scale := 10 ^ Z.of_nat ndigits) in *.
  destruct (round_half_even_between (q * inject_Z scale) (a * scale) (b * scale))
    as [Hlo Hhi].
  - rewrite inject_Z_mult. apply Qmult_le_compat_r; [done|].
    change (inject_Z 0 <= inject_Z scale)%Q. rewrite <- Zle_Qle. lia.
  - rewrite inject_Z_mult. apply Qmult_le_compat_r; [done|].
    change (inject_Z 0 <= inject_Z scale)%Q. rewrite <- Zle_Qle. lia.
  - unfold Qle. cbn. rewrite Z2Pos.id by done. lia.
Qed.

(** Clamping to [0, 100] and rounding to one decimal stays in [0, 100]. *)
Lemma clamped_score_between (score : Q) :
  (0 <= py_round (Qmax 0 (Qmin 100 score)) 1)%Q
  ∧ (py_round (Qmax 0 (Qmin 100 score)) 1 <= 100)%Q.
Proof.
  apply (py_round_between _ 1 0 100).
  - apply Q.le_max_l.
  - apply Q.max_lub; [done|]. apply Q.le_min_l.
Qed.

(** C4.  Whatever the recent win rate, the streak type and length and the
    trend label are, the score reported by [calculate_momentum_score] (base
    50, the win-rate shift, the capped streak adjustment and the trend
    adjustment, clamped and rounded to one decimal) lies between 0 and
    100. *)
Theorem momentum_score_bounded (trends : option Trends.t) (streak : Streak.t) :
  (0 <= Momentum.score (momentum_of trends streak))%Q
  ∧ (Momentum.score (momentum_of trends streak) <= 100)%Q.
Proof. unfold momentum_of. cbn [Momentum.score]. apply clamped_score_between. Qed.

(** So does every score the method returns. *)
Lemma calculate_momentum_score_between api s m s' :
  calculate_momentum_score api s = (Returns m, s') →
  (0 <= Momentum.score m)%Q ∧ (Momentum.score m <= 100)%Q.
Proof.
  unfold calculate_momentum_score. rewrite bind_run.
  destruct (analyze_performance_trends api s) as [[trends|e] s1]; [|discriminate].
  rewrite bind_run.
  destruct (get_team_win_streak api s1) as [[streak|e] s2]; [|discriminate].
  intros [= <- <-]. unfold momentum_of. cbn [Momentum.score].
  apply clamped_score_between.
Qed.

(** Between the clamp and the thresholds: a score of 75 or more reads
    "excellent", and so on down. *)
Lemma sentiment_thresholds (trends : option Trends.t) (streak : Streak.t) :
  Momentum.sentiment (momentum_of trends streak) ∈
    ["excellent"; "positive"; "neutral"; "concerning"].
Proof.
  unfold momentum_of. cbn [Momentum.sentiment].
  repeat (destruct (Qle_bool _ _)); set_solver.
Qed.

(** The method returns that score whenever its two reads return. *)
Lemma calculate_momentum_score_run api s trends s1 streak s2 :
  analyze_performance_trends api s = (Returns trends, s1) →
  get_team_win_streak api s1 = (Returns streak, s2) →
  calculate_momentum_score api s = (Returns (momentum_of trends streak), s2).
Proof.
  intros Ht Hs. unfold calculate_momentum_score.
  rewrite (bind_returns _ _ _ _ _ Ht), (bind_returns _ _ _ _ _ Hs). reflexivity.
Qed.

(** The streak adjustment is 3 points per game and at most 20. *)
Lemma streak_adjustment_capped (streak_len : Z) :
  0 ≤ streak_len →
  0 ≤ Z.min (streak_len * 3) 20 ≤ 20
  ∧ (streak_len ≤ 6 → Z.min (streak_len * 3) 20 = streak_len * 3).
Proof. lia. Qed.

(** ** The stable descending sort *)

Section SortingFacts.
Context {A K : Type} (key : A → K) (lt : K → K → bool).

Lemma insert_desc_perm x l : insert_desc key lt x l ≡ₚ x :: l.
Proof.
  induction l as [|y l IH]; [done|]. cbn.
  destruct (lt (key x) (key y)); [|done].
  rewrite IH. apply Permutation_swap.
Qed.

Lemma sorted_reverse_perm l : sorted_reverse key lt l ≡ₚ l.
Proof.
  induction l as [|x l IH]; [done|].
  cbn. rewrite insert_desc_perm. by rewrite IH.
Qed.

Lemma sorted_reverse_length l : length (sorted_reverse key lt l) = length l.
Proof. by rewrite sorted_reverse_perm. Qed.

(** The comparison is a strict weak order. *)
Hypothesis lt_asym : ∀ a b, lt a b = true → lt b a = false.
Hypothesis lt_negtrans : ∀ a b c, lt a b = false → lt b c = false → lt a c = false.

(** No element is followed by one with a greater key. *)
Lemma insert_desc_sorted x l :
  StronglySorted (λ a b, lt (key a) (key b) = false) l →
  StronglySorted (λ a b, lt (key a) (key b) = false) (insert_desc key lt x l).
Proof.
  induction l as [|y l IH]; intros Hl; cbn.
  - repeat constructor.
  - apply StronglySorted_cons in Hl as [Hy Hl].
    destruct (lt (key x) (key y)) eqn:Hxy.
    + apply StronglySorted_cons. split; [|by apply IH].
      rewrite insert_desc_perm. constructor; [by apply lt_asym | done].
    + apply StronglySorted_cons. split; [|by apply StronglySorted_cons].
      constructor; [done|].
      eapply Forall_impl; [exact Hy|]. cbn. intros z Hz. by eapply lt_negtrans.
Qed.

Lemma sorted_reverse_sorted l :
  StronglySorted (λ a b, lt (key a) (key b) = false) (sorted_reverse key lt l).
Proof.
  induction l as [|x l IH]; [constructor|]. cbn. by apply insert_desc_sorted.
Qed.

(** Elements whose keys compare equal keep their relative order. *)
Lemma insert_desc_stable a x l :
  filter (λ z, lt (key a) (key z) = false ∧ lt (key z) (key a) = false)
    (insert_desc key lt x l)
  = filter (λ z, lt (key a) (key z) = false ∧ lt (key z) (key a) = false) (x :: l).
Proof.
  induction l as [|y l IH]; [done|]. cbn [insert_desc].
  destruct (lt (key x) (key y)) eqn:Hxy; [|done].
  rewrite (filter_cons _ y), IH, !(filter_cons _ x), (filter_cons _ y).
  repeat case_decide; try done.
  destruct_and!.
  assert (lt (key x) (key y) = false) by (by eapply lt_negtrans).
  congruence.
Qed.

Lemma sorted_reverse_stable a l :
  filter (λ z, lt (key a) (key z) = false ∧ lt (key z) (key a) = false)
    (sorted_reverse key lt l)
  = filter (λ z, lt (key a) (key z) = false ∧ lt (key z) (key a) = false) l.
Proof.
  induction l as [|x l IH]; [done|].
  cbn [sorted_reverse foldr]. fold (sorted_reverse key lt l).
  rewrite insert_desc_stable, !(filter_cons _ x), IH. done.
Qed.

Lemma lt_irrefl a : lt a a = false.
Proof.
  destruct (lt a a) eqn:H; [|done].
  pose proof (lt_asym _ _ H). congruence.
Qed.

(** A list has one stable descending arrangement only: whatever algorithm
    [sorted] runs, its result is the one of [sorted_reverse]. *)
Lemma stable_arrangement_unique l1 : ∀ l2,
  l1 ≡ₚ l2 →
  StronglySorted (λ a b, lt (key a) (key b) = false) l1 →
  StronglySorted (λ a b, lt (key a) (key b) = false) l2 →
  (∀ a, filter (λ z, lt (key a) (key z) = false ∧ lt (key z) (key a) = false) l1
        = filter (λ z, lt (key a) (key z) = false ∧ lt (key z) (key a) = false) l2) →
  l1 = l2.
Proof.
  induction l1 as [|x l1 IH]; intros l2 Hperm H1 H2 Hstable.
  - by apply Permutation_nil in Hperm.
  - destruct l2 as [|y l2]; [by apply Permutation_sym, Permutation_nil in Hperm|].
    apply StronglySorted_cons in H1 as [Hx H1].
    apply StronglySorted_cons in H2 as [Hy H2].
    assert (Hxy : lt (key x) (key y) = false).
    { assert (Hin : y ∈ x :: l1) by (rewrite Hperm; set_solver).
      apply elem_of_cons in Hin as [->|Hin]; [apply lt_irrefl|].
      by apply (proj1 (Forall_forall _ _) Hx). }
    assert (Hyx : lt (key y) (key x) = false).
    { assert (Hin : x ∈ y :: l2) by (rewrite <- Hperm; set_solver).
      apply elem_of_cons in Hin as [->|Hin]; [apply lt_irrefl|].
      by apply (proj1 (Forall_forall _ _) Hy). }
    pose proof (Hstable x) as Hhead.
    rewrite !filter_cons, !decide_True in Hhead by (split; done || apply lt_irrefl).
    injection Hhead as <- _.
    f_equal. apply IH; [by eapply Permutation_cons_inv | done | done |].
    intros a. specialize (Hstable a). rewrite !filter_cons in Hstable.
    case_decide; [by injection Hstable | done].
Qed.

Lemma sorted_reverse_unique l l' :
  l' ≡ₚ l →
  StronglySorted (λ a b, lt (key a) (key b) = false) l' →
  (∀ a, filter (λ z, lt (key a) (key z) = false ∧ lt (key z) (key a) = false) l'
        = filter (λ z, lt (key a) (key z) = false ∧ lt (key z) (key a) = false) l) →
  l' = sorted_reverse key lt l.
Proof.
  intros Hperm Hsorted Hstable. apply stable_arrangement_unique.
  - by rewrite sorted_reverse_perm.
  - done.
  - apply sorted_reverse_sorted.
  - intros a. by rewrite sorted_reverse_stable.
Qed.
End SortingFacts.

(** Sorting depends on the comparison of the elements present only. *)
Lemma insert_desc_ext {A K1 K2} (key1 : A → K1) lt1 (key2 : A → K2) lt2 x l :
  (∀ y, y ∈ l → lt1 (key1 x) (key1 y) = lt2 (key2 x) (key2 y)) →
  insert_desc key1 lt1 x l = insert_desc key2 lt2 x l.
Proof.
  induction l as [|y l IH]; intros H; [done|]. cbn.
  rewrite (H y) by set_solver. rewrite IH; [done|].
  intros z Hz. apply H. set_solver.
Qed.

Lemma sorted_reverse_ext {A K1 K2} (key1 : A → K1) lt1 (key2 : A → K2) lt2 l :
  (∀ x y, x ∈ l → y ∈ l → lt1 (key1 x) (key1 y) = lt2 (key2 x) (key2 y)) →
  sorted_reverse key1 lt1 l = sorted_reverse key2 lt2 l.
Proof.
  induction l as [|x l IH]; intros H; [done|]. cbn.
  fold (sorted_reverse key1 lt1 l). fold (sorted_reverse key2 lt2 l).
  rewrite IH by (intros; apply H; set_solver).
  apply insert_desc_ext. intros y Hy.
  rewrite sorted_reverse_perm in Hy. apply H; set_solver.
Qed.

(** ** Top performers *)

Lemma Qltb_false a b : Qltb a b = false ↔ (b <= a)%Q.
Proof. unfold Qltb. rewrite negb_false_iff. apply Qle_bool_iff. Qed.

Lemma Qltb_asym a b : Qltb a b = true → Qltb b a = false.
Proof.
  unfold Qltb. rewrite negb_true_iff, negb_false_iff, Qle_bool_iff.
  intros H. apply Qlt_le_weak, Qnot_le_lt. intros Hle.
  apply Qle_bool_iff in Hle. congruence.
Qed.

Lemma Qltb_negtrans a b c : Qltb a b = false → Qltb b c = false → Qltb a c = false.
Proof. rewrite !Qltb_false. intros H1 H2. by eapply Qle_trans. Qed.

(** With a positive window, an appended entry has a proper average. *)
Lemma entries_float api now num_games players p :
  (1 ≤ num_games)%nat →
  p ∈ entries api now num_games players →
  ∃ q, Performer.avg_points p = Float q.
Proof.
  intros Hn. unfold entries. rewrite list_elem_of_fmap.
  intros (player & -> & Hin). apply list_elem_of_filter in Hin as [Hlog _].
  unfold has_log in Hlog. unfold entry_of.
  destruct (player_game_log api (Player.player_id player) now) as [[|r df]|e]; try done.
  destruct num_games as [|n]; [lia|]. cbn. by eexists.
Qed.

Lemma entries_cons api now num_games player players :
  entries api now num_games (player :: players) =
  (if decide (has_log api now player) then [entry_of api now num_games player] else [])
  ++ entries api now num_games players.
Proof.
  unfold entries. rewrite filter_cons.
  destruct (decide (has_log api now player)); reflexivity.
Qed.

(** One iteration: a log is requested; the entry is appended when the log
    arrived and is not empty. *)
Lemma performers_loop_body api num_games player performers s :
  try_except
    (df ← external (player_game_log api (Player.player_id player));
     if bool_decide (df = []) then mret performers
     else mret (performers ++ [performer_entry player (take num_games df)]))
    (λ _, mret performers) s
  = (Returns (performers ++
       (if decide (has_log api (clock s) player)
        then [entry_of api (clock s) num_games player] else [])),
     mkState (team_id s) (_cache s) (clock s) (S (api_calls s))).
Proof.
  unfold try_except. rewrite bind_run. unfold external.
  destruct (decide (has_log api (clock s) player)) as [H|H];
    unfold has_log in H; unfold entry_of;
    destruct (player_game_log api (Player.player_id player) (clock s))
      as [[|r df]|e]; try tauto; cbn -[performer_entry take];
    rewrite ?app_nil_r; reflexivity.
Qed.

(** The loop fetches one log per player, at the same time (no statement of
    the loop lets the clock advance), and appends the entries of those
    whose log arrived and is not empty. *)
Lemma performers_loop_run api num_games players : ∀ performers s,
  performers_loop api num_games players performers s =
    (Returns (performers ++ entries api (clock s) num_games players),
     mkState (team_id s) (_cache s) (clock s) (api_calls s + length players)).
Proof.
  induction players as [|player players IH]; intros performers s.
  - cbn. rewrite app_nil_r, Nat.add_0_r, state_eta. reflexivity.
  - cbn [performers_loop]. rewrite bind_run, performers_loop_body, IH.
    cbn [team_id _cache clock api_calls length].
    rewrite entries_cons, (assoc_L (++)).
    replace (api_calls s + S (length players))%nat
      with (S (api_calls s) + length players)%nat by lia.
    reflexivity.
Qed.

Lemma StronglySorted_impl {A} (R1 R2 : A → A → Prop) l :
  (∀ a b, R1 a b → R2 a b) → StronglySorted R1 l → StronglySorted R2 l.
Proof.
  intros HR. induction 1 as [|x l Hl IH Hx]; constructor; [done|].
  eapply Forall_impl; [exact Hx | auto].
Qed.

Lemma tied_iff p z :
  tied p z ↔ Qltb (points p) (points z) = false ∧ Qltb (points z) (points p) = false.
Proof.
  unfold tied. rewrite Qeq_bool_iff, !Qltb_false. split.
  - intros H. rewrite H. split; apply Qle_refl.
  - intros [H1 H2]. by apply Qle_antisym.
Qed.

(** C7.  Given the roster, the derivation requests one log for each of the
    first ten players and no other, keeps the players whose log arrived and
    is not empty, and returns the first five of their entries ranked by
    average points, highest first, entries with the same average staying in
    roster order. *)
Theorem top_performers_derivation api num_games s roster s1 :
  (1 ≤ num_games)%nat →
  get_team_roster api s = (Returns (PyRoster roster), s1) →
  ∃ ranked s2,
    get_top_performers_fetch api num_games s
      = (Returns (PyPerformers (take 5 ranked)), s2)
    ∧ (length (take 5 ranked) ≤ 5)%nat
    ∧ api_calls s2 = (api_calls s1 + length (take 10 roster))%nat
    ∧ (length (take 10 roster) ≤ 10)%nat
    ∧ ranked ≡ₚ entry_of api (clock s1) num_games
                  <$> filter (has_log api (clock s1)) (take 10 roster)
    ∧ StronglySorted (λ p q, (points q <= points p)%Q) ranked
    ∧ ∀ p, filter (tied p) ranked
           = filter (tied p) (entry_of api (clock s1) num_games
                                <$> filter (has_log api (clock s1)) (take 10 roster)).
Proof.
  intros Hn Hr.
  set (performers := entry_of api (clock s1) num_games
                       <$> filter (has_log api (clock s1)) (take 10 roster)).
  assert (Hsort : sorted_reverse Performer.avg_points float_lt performers
                  = sorted_reverse points Qltb performers).
  { apply sorted_reverse_ext. intros x y Hx Hy.
    destruct (entries_float _ _ _ _ _ Hn Hx) as [qx Hqx].
    destruct (entries_float _ _ _ _ _ Hn Hy) as [qy Hqy].
    unfold points. rewrite Hqx, Hqy. reflexivity. }
  exists (sorted_reverse points Qltb performers). eexists. split_and!.
  - unfold get_top_performers_fetch, try_except.
    rewrite (bind_returns _ _ _ _ _ Hr), bind_run, performers_loop_run.
    cbn [app]. fold performers. unfold entries. fold performers.
    rewrite <- Hsort. reflexivity.
  - rewrite length_take. lia.
  - reflexivity.
  - rewrite length_take. lia.
  - apply sorted_reverse_perm.
  - eapply StronglySorted_impl;
      [|apply (sorted_reverse_sorted points Qltb Qltb_asym Qltb_negtrans)].
    cbn. intros a b. by rewrite Qltb_false.
  - intros p.
    rewrite !(list_filter_iff (tied p) _ _ (tied_iff p)).
    apply (sorted_reverse_stable points Qltb Qltb_negtrans).
Qed.

(** A roster of twelve: ten logs are requested after the roster itself. *)
Lemma top_performers_derivation_witness :
  (1 ≤ 5)%nat
  ∧ get_team_roster mid_season fresh_tool
    = (Returns (PyRoster twelve_players), (get_team_roster mid_season fresh_tool).2)
  ∧ ∃ ranked s2,
      get_top_performers_fetch mid_season 5 fresh_tool
        = (Returns (PyPerformers (take 5 ranked)), s2)
      ∧ api_calls s2 = 11%nat.
Proof.
  assert (Hr : get_team_roster mid_season fresh_tool
    = (Returns (PyRoster twelve_players), (get_team_roster mid_season fresh_tool).2))
    by (vm_compute; reflexivity).
  split; [lia|]. split; [exact Hr|].
  destruct (top_performers_derivation mid_season 5 fresh_tool twelve_players _
              (le_S _ _ (le_S _ _ (le_S _ _ (le_S _ _ (le_n 1))))) Hr)
    as (ranked & s2 & Hrun & _ & Hcalls & _).
  exists ranked, s2. split; [exact Hrun|].
  rewrite Hcalls. vm_compute. reflexivity.
Defined.

(** On that roster: the eleventh and twelfth players are not looked at, the
    second and third are skipped, and of the two players averaging 29.0 the
    one listed first on the roster comes first. *)
Lemma top_performers_mid_season :
  (get_top_performers mid_season 5 fresh_tool).1
  = Returns (PyPerformers
      [Performer.mk "P6" "G" (Float (350 # 10)) (Float (50 # 10)) (Float (60 # 10));
       Performer.mk "P1" "G" (Float (290 # 10)) (Float (50 # 10)) (Float (60 # 10));
       Performer.mk "P4" "G" (Float (290 # 10)) (Float (50 # 10)) (Float (60 # 10));
       Performer.mk "P9" "G" (Float (200 # 10)) (Float (50 # 10)) (Float (60 # 10));
       Performer.mk "P10" "G" (Float (100 # 10)) (Float (50 # 10)) (Float (60 # 10))]).
Proof. vm_compute. reflexivity. Qed.


(** * Further properties *)
(** ** The cache as a store *)

(** What a lookup leaves behind under the other keys, and under its own. *)
Lemma get_cached_cache key ttl s :
  _cache (_get_cached key ttl s).2 = _cache s
  ∨ _cache (_get_cached key ttl s).2 = delete key (_cache s).
Proof.
  unfold _get_cached. run.
  destruct (_cache s !! key) as [[data e]|]; cbn; [|by left].
  destruct (bool_decide (ttl = None) || before (clock s) e); cbn; [by left | by right].
Qed.

Lemma get_cached_frame key key' ttl s :
  key ≠ key' → _cache (_get_cached key ttl s).2 !! key' = _cache s !! key'.
Proof.
  intros Hne. destruct (get_cached_cache key ttl s) as [-> | ->]; [done|].
  by apply lookup_delete_ne.
Qed.

(** A call changes the entry of its own key only, provided its loader
    leaves the other key alone. *)
Lemma fetch_or_cache_frame key key' ttl (f : M pyval) s :
  key ≠ key' →
  (∀ s0, _cache (f s0).2 !! key' = _cache s0 !! key') →
  _cache (_fetch_or_cache key f ttl s).2 !! key' = _cache s !! key'.
Proof.
  intros Hne Hf. pose proof (get_cached_frame key key' ttl s Hne) as Hget.
  unfold _fetch_or_cache. rewrite bind_run.
  destruct (_get_cached key ttl s) as [[cached|e] s1]; cbn in *; [|done].
  destruct (is_not_None cached); cbn; [done|].
  rewrite bind_run. specialize (Hf s1).
  destruct (f s1) as [[data|e] s2]; cbn in *; [|congruence].
  rewrite bind_run, set_cache_run. cbn.
  rewrite lookup_insert_ne by done. congruence.
Qed.

Lemma external_cache {A} (f : Z → outcome A) s : _cache (external f s).2 = _cache s.
Proof. reflexivity. Qed.

(** X1.  [_fetch_or_cache] itself writes and evicts under its own key
    only.  After a call, whatever its loader is and whatever its outcome,
    the entry of any other key is as it was before the call or, when the
    loader was run, as the loader left it; so a call whose loader leaves
    that key alone (every plain provider call does) leaves the entry
    exactly as it was.  The loader of [get_top_performers] is the one that
    does not: it goes through [get_team_roster] and stores "roster". *)
Theorem fetch_or_cache_keeps_other_keys key key' ttl (f : M pyval) s :
  key ≠ key' →
  _cache (_get_cached key ttl s).2 !! key' = _cache s !! key'
  ∧ (_cache (_fetch_or_cache key f ttl s).2 !! key' = _cache s !! key'
     ∨ (_get_cached key ttl s).1 = Returns PyNone
       ∧ _cache (_fetch_or_cache key f ttl s).2 !! key'
         = _cache (f (_get_cached key ttl s).2).2 !! key')
  ∧ ((∀ s0, _cache (f s0).2 !! key' = _cache s0 !! key') →
     _cache (_fetch_or_cache key f ttl s).2 !! key' = _cache s !! key')
  ∧ ∀ g : Z → outcome pyval,
      _cache (_fetch_or_cache key (external g) ttl s).2 !! key' = _cache s !! key'.
Proof.
  intros Hne. pose proof (get_cached_frame key key' ttl s Hne) as Hget.
  split_and!; [exact Hget | | by apply fetch_or_cache_frame
               | intros g; by apply fetch_or_cache_frame].
  unfold _fetch_or_cache. rewrite bind_run.
  destruct (_get_cached key ttl s) as [[cached|e] s1]; cbn in *; [|by left].
  destruct cached; cbn; try (by left).
  right. split; [done|]. rewrite bind_run.
  destruct (f s1) as [[data|e] s2]; cbn; [|done].
  rewrite bind_run, set_cache_run. cbn. by rewrite lookup_insert_ne.
Qed.

(** With the standings cached, loading the roster (here from a provider that
    is down) leaves them in place; whereas a first [get_top_performers], a
    call for the key "performers_5", leaves a roster behind. *)
Lemma fetch_or_cache_keeps_other_keys_witness :
  (let s := (get_standings five_games fresh_tool).2 in
   _cache (_fetch_or_cache "roster" (external failing_loader) (Some 3600) s).2
     !! "standings"
   = Some (PyStandings (standings_of_row (standings_row 6)), At 300))
  ∧ _cache fresh_tool !! "roster" = None
  ∧ _cache (get_top_performers mid_season 5 fresh_tool).2 !! "roster"
    = Some (PyRoster twelve_players, At 3600)
  ∧ _cache (get_top_performers mid_season 5 fresh_tool).2 !! "roster"
    = _cache (get_top_performers_fetch mid_season 5 fresh_tool).2 !! "roster".
Proof.
  assert (Hne : "roster" ≠ "standings") by discriminate.
  assert (Hne' : "performers_" +:+ pretty 5%nat ≠ "roster") by discriminate.
  split; [|split_and!].
  - cbn zeta.
    rewrite (proj2 (proj2 (proj2
               (fetch_or_cache_keeps_other_keys "roster" "standings" (Some 3600)
                  (external failing_loader) _ Hne))) failing_loader).
    vm_compute. reflexivity.
  - reflexivity.
  - vm_compute. reflexivity.
  - destruct (proj1 (proj2
               (fetch_or_cache_keeps_other_keys ("performers_" +:+ pretty 5%nat)
                  "roster" (Some 3600) (get_top_performers_fetch mid_season 5)
                  fresh_tool Hne'))) as [H | [_ H]].
    + exfalso. revert H. vm_compute. discriminate.
    + exact H.
Defined.

(** X2.  A loader that returns [None] is stored like any other, but its
    entry is never served: [None] is also what a miss looks like, so every
    later call for the key, at any time and with any TTL, invokes its loader
    again. *)
Theorem none_result_is_loaded_again key ttl (f : Z → outcome pyval) s :
  (_get_cached key ttl s).1 = Returns PyNone →
  f (clock s) = Returns PyNone →
  ∃ s1, _fetch_or_cache key (external f) ttl s = (Returns PyNone, s1)
        ∧ _cache s1 !! key = Some (PyNone, expiry_of ttl (clock s))
        ∧ api_calls s1 = S (api_calls s)
        ∧ ∀ ttl' d (f' : Z → outcome pyval),
            (_fetch_or_cache key (external f') ttl' (sleep d s1)).1 = f' (clock s + d)
            ∧ api_calls (_fetch_or_cache key (external f') ttl' (sleep d s1)).2
              = S (S (api_calls s)).
Proof.
  intros Hmiss Hf.
  destruct (get_cached_total key ttl s) as (v & c & Hget & _).
  rewrite Hget in Hmiss. cbn in Hmiss. injection Hmiss as ->.
  eexists. split; [|split_and!].
  - rewrite (fetch_or_cache_miss _ _ _ _ _ Hget). unfold external at 1. cbn.
    rewrite Hf. reflexivity.
  - cbn. apply lookup_insert_eq.
  - reflexivity.
  - intros ttl' d f'. set (s1 := sleep d _).
    destruct (get_cached_no_value key ttl' s1) as (c' & Hget').
    { subst s1. cbn. intros x. rewrite lookup_insert_eq. by intros [= <-]. }
    rewrite (fetch_or_cache_miss _ _ _ _ _ Hget').
    unfold external. cbn. destruct (f' (clock s + d)); cbn; done.
Qed.

Lemma none_result_is_loaded_again_witness :
  (_get_cached "standings" (Some 300) fresh_tool).1 = Returns PyNone
  ∧ none_loader (clock fresh_tool) = Returns PyNone
  ∧ ∃ s1, _fetch_or_cache "standings" (external none_loader) (Some 300) fresh_tool
          = (Returns PyNone, s1)
          ∧ api_calls (_fetch_or_cache "standings" (external none_loader) (Some 300)
                         (sleep 1 s1)).2 = 2%nat.
Proof.
  split; [reflexivity|]. split; [reflexivity|].
  destruct (none_result_is_loaded_again "standings" (Some 300) none_loader fresh_tool
              eq_refl eq_refl) as (s1 & Hrun & _ & _ & Hnext).
  exists s1. split; [exact Hrun|].
  exact (proj2 (Hnext (Some 300) 1 none_loader)).
Defined.

(** X3.  A call with no TTL ([ttl_seconds=None], the permanent policy) takes
    whatever value is stored under the key as valid: an entry stored with a
    finite TTL is served by it at any later time, past its expiry too,
    without eviction and without running the loader. *)
Theorem untimed_call_serves_any_entry key data T d (f : M pyval) s :
  data ≠ PyNone →
  _fetch_or_cache key f None (sleep d (_set_cache key data (Some T) s).2)
  = (Returns data, sleep d (_set_cache key data (Some T) s).2).
Proof.
  intros Hdata. destruct (read_after_store key data (Some T) s d) as [Hk _].
  apply (fetch_or_cache_hit _ _ _ _ _ _ Hk Hdata). by left.
Qed.

(** Standings stored for 300 seconds, asked for a day later without TTL,
    with a loader that would fail. *)
Lemma untimed_call_serves_any_entry_witness :
  PyEmptyDict ≠ PyNone
  ∧ (_fetch_or_cache "standings" (external failing_loader) None
       (sleep 86400 (_set_cache "standings" PyEmptyDict (Some 300) fresh_tool).2)).1
    = Returns PyEmptyDict.
Proof.
  assert (H : PyEmptyDict ≠ PyNone) by discriminate.
  split; [exact H|].
  by rewrite (untimed_call_serves_any_entry "standings" PyEmptyDict 300 86400
                (external failing_loader) fresh_tool H).
Defined.

Lemma get_cache_stats_run s :
  get_cache_stats s =
    (Returns (size (_cache s),
              length (filter (λ kv : string * (pyval * expiry),
                                before (clock s) kv.2.2 = true)
                        (map_to_list (_cache s)))), s).
Proof. reflexivity. Qed.

(** X4.  [get_cache_stats] changes nothing; the total it reports is the
    number of stored entries and the number of valid entries never exceeds
    it. *)
Theorem cache_stats_bounds s :
  ∃ total valid,
    get_cache_stats s = (Returns (total, valid), s)
    ∧ total = size (_cache s)
    ∧ (valid ≤ total)%nat.
Proof.
  eexists _, _. split; [apply get_cache_stats_run|]. split; [done|].
  rewrite <- length_map_to_list. apply length_filter.
Qed.

(** X5.  Eviction is lazy.  An entry whose expiry has passed still counts in
    the total of [get_cache_stats], never among the valid entries, until a
    read with a finite TTL finds it: that read reports it absent and the
    total drops by one while the valid count stays. *)
Theorem expired_entry_counts_until_read key data t T s :
  _cache s !! key = Some (data, At t) →
  t ≤ clock s →
  ∃ total valid s2,
    get_cache_stats s = (Returns (total, valid), s)
    ∧ (valid < total)%nat
    ∧ _get_cached key (Some T) s = (Returns PyNone, s2)
    ∧ get_cache_stats s2 = (Returns (total - 1, valid)%nat, s2).
Proof.
  intros Hk Ht.
  assert (Hexp : before (clock s) (At t) = false).
  { cbn. apply bool_decide_eq_false. lia. }
  set (P := λ kv : string * (pyval * expiry), before (clock s) kv.2.2 = true).
  assert (Hvalid : length (filter P (map_to_list (_cache s)))
                   = length (filter P (map_to_list (delete key (_cache s))))).
  { rewrite <- (map_to_list_delete _ _ _ Hk), filter_cons_False; [done|].
    unfold P. cbn [snd]. rewrite Hexp. discriminate. }
  assert (Hsize : size (delete key (_cache s)) = pred (size (_cache s))).
  { apply map_size_delete_Some. by eexists. }
  assert (Hpos : (0 < size (_cache s))%nat).
  { destruct (size (_cache s)) eqn:Hz; [|lia].
    apply map_size_empty_inv in Hz. rewrite Hz, lookup_empty in Hk. discriminate. }
  eexists _, _, _. split_and!.
  - apply get_cache_stats_run.
  - fold P. rewrite Hvalid.
    eapply Nat.le_lt_trans; [apply length_filter|].
    rewrite length_map_to_list, Hsize. lia.
  - by apply (get_cached_expired _ _ _ _ _ Hk).
  - rewrite get_cache_stats_run. cbn [_cache clock]. fold P.
    rewrite Hvalid, Hsize. repeat f_equal. lia.
Qed.

(** Standings stored for 300 seconds on a fresh tool, 300 seconds ago. *)
Lemma expired_entry_counts_until_read_witness :
  let s := sleep 300 (_set_cache "standings" PyEmptyDict (Some 300) fresh_tool).2 in
  _cache s !! "standings" = Some (PyEmptyDict, At 300)
  ∧ 300 ≤ clock s
  ∧ ∃ total valid s2,
      get_cache_stats s = (Returns (total, valid), s)
      ∧ (valid < total)%nat
      ∧ _get_cached "standings" (Some 300) s = (Returns PyNone, s2)
      ∧ get_cache_stats s2 = (Returns (total - 1, valid)%nat, s2).
Proof.
  set (s := sleep 300 _).
  assert (Hk : _cache s !! "standings" = Some (PyEmptyDict, At 300))
    by (vm_compute; reflexivity).
  assert (Ht : 300 ≤ clock s) by (vm_compute; discriminate).
  split; [exact Hk|]. split; [exact Ht|].
  exact (expired_entry_counts_until_read "standings" PyEmptyDict 300 300 s Hk Ht).
Defined.

(** X6.  After [clear_cache] the store is empty (nothing stored, nothing
    valid) and the next call for any key goes to its loader, whatever was
    cached before. *)
Theorem clear_cache_forces_reload key ttl (f : Z → outcome pyval) s :
  get_cache_stats (clear_cache s).2 = (Returns (0, 0)%nat, (clear_cache s).2)
  ∧ (_fetch_or_cache key (external f) ttl (clear_cache s).2).1 = f (clock s)
  ∧ api_calls (_fetch_or_cache key (external f) ttl (clear_cache s).2).2
    = S (api_calls s).
Proof.
  split.
  - rewrite get_cache_stats_run. cbn. by rewrite map_to_list_empty, map_size_empty.
  - assert (Hget : _get_cached key ttl (clear_cache s).2
                   = (Returns PyNone, (clear_cache s).2)).
    { apply get_cached_absent. cbn. apply lookup_empty. }
    rewrite (fetch_or_cache_miss _ _ _ _ _ Hget). unfold external. cbn.
    destruct (f (clock s)); cbn; done.
Qed.

(** X7.  Once the expiry of an entry has passed, a call with a finite TTL
    never hands out the old value: it runs the loader; the loader's value
    replaces the entry, with an expiry counted from now, and a failing
    loader leaves the key without entry. *)
Theorem expired_entry_is_replaced key data t T (f : Z → outcome pyval) s :
  _cache s !! key = Some (data, At t) →
  t ≤ clock s →
  ∃ s', _fetch_or_cache key (external f) (Some T) s = (f (clock s), s')
        ∧ api_calls s' = S (api_calls s)
        ∧ _cache s' = match f (clock s) with
                      | Returns v => <[key := (v, expiry_of (Some T) (clock s))]> (_cache s)
                      | Raises _ => delete key (_cache s)
                      end.
Proof.
  intros Hk Ht.
  assert (Hexp : before (clock s) (At t) = false).
  { cbn. apply bool_decide_eq_false. lia. }
  rewrite (fetch_or_cache_miss _ _ _ _ _ (get_cached_expired _ T _ _ _ Hk Hexp)).
  unfold external. cbn. destruct (f (clock s)) as [v|e]; cbn.
  - eexists. split; [reflexivity|]. split; [reflexivity|]. cbn.
    apply insert_delete_eq.
  - eexists. split; [reflexivity|]. split; reflexivity.
Qed.

(** Rank-6 standings that expired 100 seconds ago, and a loader that times
    out: the call raises and the key is left empty. *)
Lemma expired_entry_is_replaced_witness :
  let s := sleep 400 (get_standings five_games fresh_tool).2 in
  _cache s !! "standings" = Some (PyStandings (standings_of_row (standings_row 6)), At 300)
  ∧ 300 ≤ clock s
  ∧ ∃ s', _fetch_or_cache "standings" (external failing_loader) (Some 300) s
          = (Raises (ProviderError "timeout"), s')
          ∧ _cache s' !! "standings" = None.
Proof.
  set (s := sleep 400 _).
  assert (Hk : _cache s !! "standings"
               = Some (PyStandings (standings_of_row (standings_row 6)), At 300))
    by (vm_compute; reflexivity).
  assert (Ht : 300 ≤ clock s) by (vm_compute; discriminate).
  split; [exact Hk|]. split; [exact Ht|].
  destruct (expired_entry_is_replaced "standings" _ 300 300 failing_loader s Hk Ht)
    as (s' & Hrun & _ & Hcache).
  exists s'. split; [exact Hrun|].
  rewrite Hcache. apply lookup_delete_eq.
Defined.

(** ** The cached getters *)

Lemma fetch_or_cache_returns key (f : M pyval) ttl s :
  (∀ s0, ∃ v s1, f s0 = (Returns v, s1) ∧ v ≠ PyNone) →
  ∃ v s', _fetch_or_cache key f ttl s = (Returns v, s') ∧ v ≠ PyNone.
Proof.
  intros Hf. destruct (get_cached_total key ttl s) as (v0 & c & Hget & _).
  unfold _fetch_or_cache. rewrite (bind_returns _ _ _ _ _ Hget).
  destruct (is_not_None v0) eqn:Hv0.
  - eexists _, _. split; [reflexivity|]. by destruct v0.
  - rewrite bind_run. destruct (Hf (mkState (team_id s) c (clock s) (api_calls s)))
      as (v & s1 & -> & Hv).
    rewrite bind_run, set_cache_run. by eexists _, _.
Qed.

(** The loaders in full: one external call each, the cache untouched. *)
Lemma get_recent_games_fetch_run api n s :
  ∃ l, get_recent_games_fetch api n s
       = (Returns (PyGames l),
          mkState (team_id s) (_cache s) (clock s) (S (api_calls s))).
Proof.
  unfold get_recent_games_fetch, try_except. rewrite bind_run.
  unfold external. destruct (league_game_log api (clock s)) as [df|e].
  - cbn. rewrite bind_run. unfold self_team_id. cbn.
    case_bool_decide; by eexists.
  - by eexists.
Qed.

Lemma get_standings_fetch_run api s :
  ∃ v, get_standings_fetch api s
       = (Returns v, mkState (team_id s) (_cache s) (clock s) (S (api_calls s)))
       ∧ (v = PyEmptyDict ∨ ∃ st, v = PyStandings st).
Proof.
  unfold get_standings_fetch, try_except. rewrite bind_run.
  unfold external. destruct (league_standings api (clock s)) as [df|e].
  - cbn. rewrite bind_run. unfold self_team_id. cbn.
    destruct (filter _ df); eexists; (split; [reflexivity|]); eauto.
  - eexists. split; [reflexivity|]. by left.
Qed.

Lemma get_team_roster_fetch_run api s :
  ∃ l, get_team_roster_fetch api s
       = (Returns (PyRoster l),
          mkState (team_id s) (_cache s) (clock s) (S (api_calls s))).
Proof.
  unfold get_team_roster_fetch, try_except. rewrite bind_run.
  unfold self_team_id. cbn. rewrite bind_run. unfold external. cbn.
  destruct (common_team_roster api (team_id s) (clock s)); by eexists.
Qed.

Lemma get_team_roster_returns api s :
  ∃ v s', get_team_roster api s = (Returns v, s') ∧ v ≠ PyNone.
Proof.
  apply fetch_or_cache_returns. intros s0.
  destruct (get_team_roster_fetch_run api s0) as (l & ->). by eexists _, _.
Qed.

Lemma get_top_performers_fetch_returns api n s :
  ∃ l s', get_top_performers_fetch api n s = (Returns (PyPerformers l), s').
Proof.
  unfold get_top_performers_fetch, try_except. rewrite bind_run.
  destruct (get_team_roster_returns api s) as (v & s1 & -> & _).
  destruct v; cbn; try by eexists _, _.
  rewrite bind_run, performers_loop_run. by eexists _, _.
Qed.

(** X8.  No error of the provider reaches the caller of a cached getter.
    Whatever the endpoints do and whatever the cache holds,
    [get_recent_games], [get_standings], [get_team_roster] and
    [get_top_performers] return, and what they return is never [None]. *)
Theorem getters_never_raise api n s :
  (∃ v s', get_recent_games api n s = (Returns v, s') ∧ v ≠ PyNone)
  ∧ (∃ v s', get_standings api s = (Returns v, s') ∧ v ≠ PyNone)
  ∧ (∃ v s', get_team_roster api s = (Returns v, s') ∧ v ≠ PyNone)
  ∧ (∃ v s', get_top_performers api n s = (Returns v, s') ∧ v ≠ PyNone).
Proof.
  split_and!.
  - apply fetch_or_cache_returns. intros s0.
    destruct (get_recent_games_fetch_run api n s0) as (l & ->). by eexists _, _.
  - apply fetch_or_cache_returns. intros s0.
    destruct (get_standings_fetch_run api s0) as (v & -> & [-> | [st ->]]);
      by eexists _, _.
  - apply get_team_roster_returns.
  - apply fetch_or_cache_returns. intros s0.
    destruct (get_top_performers_fetch_returns api n s0) as (l & s1 & ->).
    by eexists _, _.
Qed.

(** The order of dates: [String.ltb] is a strict weak order. *)
Lemma ascii_compare_refl x : Ascii.compare x x = Eq.
Proof. apply N.compare_refl. Qed.

Lemma string_compare_ge_trans a : ∀ b c,
  String.compare a b ≠ Lt → String.compare b c ≠ Lt → String.compare a c ≠ Lt.
Proof.
  induction a as [|x a IH]; intros [|y b] [|z c]; cbn; try done.
  destruct (Ascii.compare x y) eqn:Hxy; [|done|].
  - apply Ascii.compare_eq_iff in Hxy as ->.
    destruct (Ascii.compare y z) eqn:Hyz; [|done|done]. apply IH.
  - destruct (Ascii.compare y z) eqn:Hyz; [|done|].
    + apply Ascii.compare_eq_iff in Hyz as <-. by rewrite Hxy.
    + unfold Ascii.compare in *.
      rewrite N.compare_gt_iff in Hxy, Hyz.
      assert (Hxz : (Ascii.N_of_ascii z < Ascii.N_of_ascii x)%N) by lia.
      apply N.compare_gt_iff in Hxz. by rewrite Hxz.
Qed.

Lemma string_ltb_asym a b : String.ltb a b = true → String.ltb b a = false.
Proof.
  unfold String.ltb. rewrite (String.compare_antisym b a).
  destruct (String.compare a b); done.
Qed.

Lemma string_ltb_negtrans a b c :
  String.ltb a b = false → String.ltb b c = false → String.ltb a c = false.
Proof.
  unfold String.ltb. intros Hab Hbc.
  pose proof (string_compare_ge_trans a b c) as H.
  destruct (String.compare a b), (String.compare b c), (String.compare a c);
    try done; exfalso; by apply H.
Qed.

Lemma StronglySorted_take {A} (R : A → A → Prop) n l :
  StronglySorted R l → StronglySorted R (take n l).
Proof.
  intros H. rewrite <- (take_drop n l) in H. by apply StronglySorted_app_1_l in H.
Qed.

(** X9.  When nothing is cached for the window and the league log arrives,
    [get_recent_games(n)] returns the team's games only, at most [n] of
    them, the most recent first; each carries as opponent points the team's
    points less the plus/minus of the log; and the list is stored for 300
    seconds. *)
Theorem recent_games_fresh_load api n s df :
  _cache s !! ("games_" +:+ pretty n) = None →
  league_game_log api (clock s) = Returns df →
  ∃ games s',
    get_recent_games api n s = (Returns (PyGames games), s')
    ∧ length games
      = (n `min` length (filter (λ g, LeagueGameLog.TEAM_ID g = team_id s) df))%nat
    ∧ (∀ g, g ∈ games →
         ∃ r, r ∈ df ∧ LeagueGameLog.TEAM_ID r = team_id s ∧ g = game_of_row r)
    ∧ StronglySorted (λ a b, String.ltb (Game.date a) (Game.date b) = false) games
    ∧ Forall (λ g, Game.team_points g - Game.opponent_points g = Game.plus_minus g) games
    ∧ _cache s' !! ("games_" +:+ pretty n) = Some (PyGames games, At (clock s + 300))
    ∧ api_calls s' = S (api_calls s).
Proof.
  intros Hk Hdf. unfold get_recent_games.
  rewrite (fetch_or_cache_miss _ _ _ _ _ (get_cached_absent _ _ _ Hk)).
  unfold get_recent_games_fetch, try_except. rewrite bind_run.
  unfold external. rewrite Hdf. cbn. rewrite bind_run. unfold self_team_id. cbn.
  set (team_games := filter _ df).
  case_bool_decide as Hempty; cbn.
  - eexists _, _. split; [reflexivity|]. rewrite Hempty. split_and!.
    + cbn. lia.
    + intros g Hg. by apply elem_of_nil in Hg.
    + constructor.
    + constructor.
    + apply lookup_insert_eq.
    + reflexivity.
  - eexists _, _. split; [reflexivity|]. split_and!.
    + rewrite length_fmap, length_take, sorted_reverse_length. done.
    + intros g Hg. apply list_elem_of_fmap in Hg as (r & -> & Hr).
      apply elem_of_take in Hr as (i & Hr & _).
      apply list_elem_of_lookup_2 in Hr. rewrite sorted_reverse_perm in Hr.
      apply list_elem_of_filter in Hr as [Hteam Hin]. eauto.
    + apply (StronglySorted_fmap _ (λ a b, String.ltb (LeagueGameLog.GAME_DATE a)
                                             (LeagueGameLog.GAME_DATE b) = false));
        [done|].
      apply StronglySorted_take.
      apply (sorted_reverse_sorted _ _ string_ltb_asym string_ltb_negtrans).
    + apply Forall_fmap, Forall_forall. intros g _. cbn. lia.
    + apply lookup_insert_eq.
    + reflexivity.
Qed.

(** Five games in a window of three: the three latest, newest first. *)
Lemma recent_games_fresh_load_witness :
  _cache fresh_tool !! ("games_" +:+ pretty 3%nat) = None
  ∧ ∃ df, league_game_log five_games (clock fresh_tool) = Returns df
    ∧ ∃ games s',
        get_recent_games five_games 3 fresh_tool = (Returns (PyGames games), s')
        ∧ length games = 3%nat
        ∧ Game.date <$> games = ["2025-11-09"; "2025-11-07"; "2025-11-05"].
Proof.
  split; [reflexivity|]. eexists. split; [reflexivity|].
  destruct (recent_games_fresh_load five_games 3 fresh_tool _ eq_refl eq_refl)
    as (games & s' & Hrun & Hlen & _).
  exists games, s'. split; [exact Hrun|]. split; [exact Hlen|].
  assert (Hval : (get_recent_games five_games 3 fresh_tool).1 = Returns (PyGames games))
    by (by rewrite Hrun).
  vm_compute in Hval. injection Hval as <-. reflexivity.
Defined.

Lemma games_key_inj (n m : nat) : "games_" +:+ pretty n = "games_" +:+ pretty m → n = m.
Proof.
  intros H. injection H as H. change (pretty n = pretty m) in H.
  by apply (inj pretty) in H.
Qed.

Lemma get_recent_games_fetch_frame api n key s :
  _cache (get_recent_games_fetch api n s).2 !! key = _cache s !! key.
Proof. by destruct (get_recent_games_fetch_run api n s) as (l & ->). Qed.

(** X10.  Each window size has an entry of its own: the games cached for
    one size are of no use to another, so after [get_recent_games(n)] a
    first [get_recent_games(m)] with [m ≠ n] requests the league log
    again. *)
Theorem window_sizes_are_cached_apart api n m s :
  n ≠ m →
  _cache s !! ("games_" +:+ pretty m) = None →
  api_calls (get_recent_games api m (get_recent_games api n s).2).2
  = S (api_calls (get_recent_games api n s).2).
Proof.
  intros Hnm Hk. set (s1 := (get_recent_games api n s).2).
  assert (Hk1 : _cache s1 !! ("games_" +:+ pretty m) = None).
  { subst s1. unfold get_recent_games. rewrite fetch_or_cache_frame; [done| |].
    - intros H. by apply games_key_inj in H.
    - intros s0. apply get_recent_games_fetch_frame. }
  unfold get_recent_games at 1.
  rewrite (fetch_or_cache_miss _ _ _ _ _ (get_cached_absent _ _ _ Hk1)).
  by destruct (get_recent_games_fetch_run api m s1) as (l & ->).
Qed.

(** The ten-game list first, the twenty-game list of the streak next: two
    requests. *)
Lemma window_sizes_are_cached_apart_witness :
  10%nat ≠ 20%nat
  ∧ _cache fresh_tool !! ("games_" +:+ pretty 20%nat) = None
  ∧ api_calls (get_recent_games five_games 20
                 (get_recent_games five_games 10 fresh_tool).2).2 = 2%nat.
Proof.
  assert (Hne : 10%nat ≠ 20%nat) by discriminate.
  split; [exact Hne|]. split; [reflexivity|].
  rewrite (window_sizes_are_cached_apart five_games 10 20 fresh_tool Hne eq_refl).
  vm_compute. reflexivity.
Defined.

(** ** Shapes of cached values are kept *)

Lemma shape_standings v :
  v = PyEmptyDict ∨ (∃ st, v = PyStandings st) → shape_ok "standings" v.
Proof. intros H. unfold shape_ok. split_and!; [done | discriminate..]. Qed.

Lemma shape_roster l : shape_ok "roster" (PyRoster l).
Proof. unfold shape_ok. split_and!; [discriminate | eauto | discriminate..]. Qed.

Lemma shape_games (n : nat) l : shape_ok ("games_" +:+ pretty n) (PyGames l).
Proof. unfold shape_ok. split_and!; [discriminate | discriminate | eauto | discriminate]. Qed.

Lemma shape_performers (n : nat) l :
  shape_ok ("performers_" +:+ pretty n) (PyPerformers l).
Proof. unfold shape_ok. split_and!; [discriminate | discriminate | discriminate | eauto]. Qed.

Lemma well_typed_empty : well_typed ∅.
Proof. intros key v e H. by rewrite lookup_empty in H. Qed.

Lemma well_typed_subseteq c1 c2 : c1 ⊆ c2 → well_typed c2 → well_typed c1.
Proof. intros Hsub H key v e Hk. eapply H, lookup_weaken; done. Qed.

Lemma well_typed_insert key v e c :
  shape_ok key v → well_typed c → well_typed (<[key := (v, e)]> c).
Proof.
  intros Hv H key' v' e' Hk. destruct (decide (key = key')) as [<-|Hne].
  - rewrite lookup_insert_eq in Hk. by injection Hk as <- _.
  - rewrite lookup_insert_ne in Hk by done. by eapply H.
Qed.

(** A call keeps the shapes when its loader does and returns the shape of
    the key. *)
Lemma fetch_or_cache_well_typed key (f : M pyval) ttl s :
  (∀ s0, well_typed (_cache s0) → well_typed (_cache (f s0).2)) →
  (∀ s0 v s1, f s0 = (Returns v, s1) → shape_ok key v) →
  well_typed (_cache s) →
  well_typed (_cache (_fetch_or_cache key f ttl s).2).
Proof.
  intros Hf Hshape Hs.
  destruct (get_cached_total key ttl s) as (v0 & c & Hget & Hsub & _).
  unfold _fetch_or_cache. rewrite (bind_returns _ _ _ _ _ Hget).
  pose proof (well_typed_subseteq _ _ Hsub Hs) as Hc.
  destruct (is_not_None v0); [done|].
  rewrite bind_run.
  specialize (Hf (mkState (team_id s) c (clock s) (api_calls s)) Hc).
  destruct (f _) as [[v|e] s1] eqn:Hrun; [|done].
  rewrite bind_run, set_cache_run. cbn. apply well_typed_insert; [|done].
  by eapply Hshape.
Qed.

(** What a call returns is what the cache then holds under the key. *)
Lemma fetch_or_cache_stored key (f : M pyval) ttl s v s' :
  _fetch_or_cache key f ttl s = (Returns v, s') →
  v ≠ PyNone →
  ∃ e, _cache s' !! key = Some (v, e).
Proof.
  intros Hrun Hv. destruct (get_cached_total key ttl s) as (v0 & c & Hget & _).
  assert (v0 = PyNone ∨ v0 ≠ PyNone) as [-> | Hv0]
    by (destruct v0; (by left) || (by right)).
  - rewrite (fetch_or_cache_miss _ _ _ _ _ Hget) in Hrun.
    destruct (f _) as [[data|e] s2]; [|discriminate].
    injection Hrun as -> <-. eexists. cbn. apply lookup_insert_eq.
  - destruct (get_cached_value _ _ _ _ _ Hget Hv0) as (Hs & e & Hk & Hlive).
    rewrite (fetch_or_cache_hit _ f _ _ _ _ Hk Hv0 Hlive) in Hrun.
    injection Hrun as -> ->. eauto.
Qed.

Lemma get_recent_games_well_typed api n s :
  well_typed (_cache s) → well_typed (_cache (get_recent_games api n s).2).
Proof.
  apply fetch_or_cache_well_typed.
  - intros s0 H. by destruct (get_recent_games_fetch_run api n s0) as (l & ->).
  - intros s0 v s1 H. destruct (get_recent_games_fetch_run api n s0) as (l & Hl).
    rewrite Hl in H. injection H as <- _. apply shape_games.
Qed.

Lemma get_standings_well_typed api s :
  well_typed (_cache s) → well_typed (_cache (get_standings api s).2).
Proof.
  apply fetch_or_cache_well_typed.
  - intros s0 H. by destruct (get_standings_fetch_run api s0) as (v & -> & _).
  - intros s0 v s1 H. destruct (get_standings_fetch_run api s0) as (v' & Hv & Hshape).
    rewrite Hv in H. injection H as <- _. by apply shape_standings.
Qed.

Lemma get_team_roster_well_typed api s :
  well_typed (_cache s) → well_typed (_cache (get_team_roster api s).2).
Proof.
  apply fetch_or_cache_well_typed.
  - intros s0 H. by destruct (get_team_roster_fetch_run api s0) as (l & ->).
  - intros s0 v s1 H. destruct (get_team_roster_fetch_run api s0) as (l & Hl).
    rewrite Hl in H. injection H as <- _. apply shape_roster.
Qed.

Lemma get_top_performers_fetch_cache api n s :
  _cache (get_top_performers_fetch api n s).2 = _cache (get_team_roster api s).2.
Proof.
  unfold get_top_performers_fetch, try_except. rewrite bind_run.
  destruct (get_team_roster api s) as [[v|e] s1]; [|done].
  destruct v; cbn; try done.
  by rewrite bind_run, performers_loop_run.
Qed.

Lemma get_top_performers_well_typed api n s :
  well_typed (_cache s) → well_typed (_cache (get_top_performers api n s).2).
Proof.
  apply fetch_or_cache_well_typed.
  - intros s0 H. rewrite get_top_performers_fetch_cache.
    by apply get_team_roster_well_typed.
  - intros s0 v s1 H.
    destruct (get_top_performers_fetch_returns api n s0) as (l & s2 & Hl).
    rewrite Hl in H. injection H as <- _. apply shape_performers.
Qed.

(** The derivations leave the tool in the state their reads leave it in,
    whether they return or raise. *)
Lemma win_streak_state api s :
  (get_team_win_streak api s).2 = (get_recent_games api 20 s).2.
Proof.
  unfold get_team_win_streak. rewrite bind_run.
  destruct (get_recent_games api 20 s) as [[v|e] s1]; [|done].
  destruct (negb (truthy v)); [done|]. by destruct v as [| | |[|g l]| |].
Qed.

Lemma trends_state api s :
  (analyze_performance_trends api s).2 = (get_recent_games api 20 s).2.
Proof.
  unfold analyze_performance_trends. rewrite bind_run.
  destruct (get_recent_games api 20 s) as [[v|e] s1]; [|done].
  destruct (negb (truthy v)); [done|]. destruct v; try done.
  rewrite bind_run. unfold lift at 1.
  destruct (mean _); [|done]. rewrite bind_run. unfold lift at 1.
  by destruct (mean _).
Qed.

Lemma metrics_state api n s :
  (get_performance_metrics api n s).2 = (get_recent_games api n s).2.
Proof.
  unfold get_performance_metrics. rewrite bind_run.
  destruct (get_recent_games api n s) as [[v|e] s1]; [|done].
  destruct (negb (truthy v)); [done|]. destruct v; try done.
  repeat (rewrite bind_run; unfold lift at 1;
          match goal with |- context [mean ?x] => destruct (mean x); [|done] end).
  rewrite bind_run. unfold lift at 1. by destruct (stdev_lt _ _).
Qed.

Lemma context_state api s :
  (get_competitive_context api s).2 = (get_standings api s).2.
Proof.
  unfold get_competitive_context. rewrite bind_run.
  destruct (get_standings api s) as [[v|e] s1]; [|done].
  destruct (negb (truthy v)); [done|]. destruct v; try done.
  cbn. by repeat case_bool_decide.
Qed.

Lemma momentum_well_typed api s :
  well_typed (_cache s) → well_typed (_cache (calculate_momentum_score api s).2).
Proof.
  intros H. unfold calculate_momentum_score. rewrite bind_run.
  assert (H1 : well_typed (_cache (analyze_performance_trends api s).2))
    by (rewrite trends_state; by apply get_recent_games_well_typed).
  destruct (analyze_performance_trends api s) as [[t|e] s1]; cbn in H1; [|done].
  rewrite bind_run.
  assert (H2 : well_typed (_cache (get_team_win_streak api s1).2))
    by (rewrite win_streak_state; by apply get_recent_games_well_typed).
  by destruct (get_team_win_streak api s1) as [[k|e] s2].
Qed.

(** X11.  Every method keeps the shapes of the cache: if each key holds what
    its method stores (a standings dictionary, a roster, lists of games or
    of performers), it still does after any getter or derivation has run,
    returned or raised.  The empty cache of a new tool has the property. *)
Theorem methods_keep_cache_shapes api n s :
  well_typed (_cache s) →
  well_typed (_cache (get_recent_games api n s).2)
  ∧ well_typed (_cache (get_standings api s).2)
  ∧ well_typed (_cache (get_team_roster api s).2)
  ∧ well_typed (_cache (get_top_performers api n s).2)
  ∧ well_typed (_cache (get_team_win_streak api s).2)
  ∧ well_typed (_cache (analyze_performance_trends api s).2)
  ∧ well_typed (_cache (get_performance_metrics api n s).2)
  ∧ well_typed (_cache (get_competitive_context api s).2)
  ∧ well_typed (_cache (calculate_momentum_score api s).2).
Proof.
  intros H. split_and!.
  - by apply get_recent_games_well_typed.
  - by apply get_standings_well_typed.
  - by apply get_team_roster_well_typed.
  - by apply get_top_performers_well_typed.
  - rewrite win_streak_state. by apply get_recent_games_well_typed.
  - rewrite trends_state. by apply get_recent_games_well_typed.
  - rewrite metrics_state. by apply get_recent_games_well_typed.
  - rewrite context_state. by apply get_standings_well_typed.
  - by apply momentum_well_typed.
Qed.

Lemma methods_keep_cache_shapes_witness :
  well_typed (_cache fresh_tool)
  ∧ well_typed (_cache (get_top_performers mid_season 5 fresh_tool).2).
Proof.
  split; [exact well_typed_empty|].
  exact (proj1 (proj2 (proj2 (proj2
    (methods_keep_cache_shapes mid_season 5 fresh_tool well_typed_empty))))).
Defined.

Lemma get_recent_games_shape api n s :
  well_typed (_cache s) →
  ∃ l s', get_recent_games api n s = (Returns (PyGames l), s').
Proof.
  intros H. pose proof (get_recent_games_well_typed api n s H) as H'.
  destruct (fetch_or_cache_returns ("games_" +:+ pretty n)
              (get_recent_games_fetch api n) (Some 300) s) as (v & s' & Hrun & Hv).
  { intros s0. destruct (get_recent_games_fetch_run api n s0) as (l & ->).
    by eexists _, _. }
  fold (get_recent_games api n s) in Hrun. rewrite Hrun in H'. cbn in H'.
  destruct (fetch_or_cache_stored _ _ _ _ _ _ Hrun Hv) as (e & Hk).
  destruct (H' _ _ _ Hk) as (_ & _ & Hgames & _).
  destruct (Hgames n eq_refl) as (l & ->). by eexists _, _.
Qed.

Lemma get_standings_shape api s :
  well_typed (_cache s) →
  ∃ v s', get_standings api s = (Returns v, s')
          ∧ (v = PyEmptyDict ∨ ∃ st, v = PyStandings st).
Proof.
  intros H. pose proof (get_standings_well_typed api s H) as H'.
  destruct (fetch_or_cache_returns "standings" (get_standings_fetch api) (Some 300) s)
    as (v & s' & Hrun & Hv).
  { intros s0. destruct (get_standings_fetch_run api s0) as (v & -> & [-> | [st ->]]);
      by eexists _, _. }
  fold (get_standings api s) in Hrun. rewrite Hrun in H'. cbn in H'.
  destruct (fetch_or_cache_stored _ _ _ _ _ _ Hrun Hv) as (e & Hk).
  destruct (H' _ _ _ Hk) as (Hst & _).
  eexists _, _. split; [done|]. by apply Hst.
Qed.

Lemma mean_raises data e : mean data = Raises e → e = StatisticsError.
Proof. destruct data; cbn; congruence. Qed.

Lemma stdev_lt_raises data bound e : stdev_lt data bound = Raises e → e = StatisticsError.
Proof. unfold stdev_lt. destruct data as [|x [|y data]]; cbn; congruence. Qed.

Lemma win_streak_returns api s :
  well_typed (_cache s) → ∃ k s', get_team_win_streak api s = (Returns k, s').
Proof.
  intros H. destruct (get_recent_games_shape api 20 s H) as (l & s' & Hrun).
  unfold get_team_win_streak. rewrite (bind_returns _ _ _ _ _ Hrun).
  destruct l as [|g l]; by eexists _, _.
Qed.

Ltac case_mean :=
  rewrite bind_run; unfold lift at 1;
  match goal with
  | |- context [match mean ?x with _ => _ end] =>
      let Hm := fresh "Hm" in
      destruct (mean x) eqn:Hm; [|intros [= <- _]; by eapply mean_raises]
  end.

Lemma trends_raise_statistics api s e s' :
  well_typed (_cache s) →
  analyze_performance_trends api s = (Raises e, s') → e = StatisticsError.
Proof.
  intros H. destruct (get_recent_games_shape api 20 s H) as (l & s1 & Hrun).
  unfold analyze_performance_trends. rewrite (bind_returns _ _ _ _ _ Hrun).
  destruct (negb (truthy (PyGames l))); [unfold mret, M_ret; discriminate|].
  do 2 case_mean. unfold mret, M_ret. discriminate.
Qed.

(** X12.  On a cache with the shapes of X11, no derivation fails on the
    form of its input: [get_competitive_context] and [get_team_win_streak]
    always return, and the only exception the trend analysis, the metrics
    and the momentum score can raise is the [StatisticsError] of a mean or a
    standard deviation over too few games. *)
Theorem derivations_fail_only_on_statistics api n s :
  well_typed (_cache s) →
  (∃ c s', get_competitive_context api s = (Returns c, s'))
  ∧ (∃ k s', get_team_win_streak api s = (Returns k, s'))
  ∧ (∀ e s', analyze_performance_trends api s = (Raises e, s') → e = StatisticsError)
  ∧ (∀ e s', get_performance_metrics api n s = (Raises e, s') → e = StatisticsError)
  ∧ (∀ e s', calculate_momentum_score api s = (Raises e, s') → e = StatisticsError).
Proof.
  intros H. split_and!.
  - destruct (get_standings_shape api s H) as (v & s' & Hrun & Hshape).
    unfold get_competitive_context. rewrite (bind_returns _ _ _ _ _ Hrun).
    destruct Hshape as [-> | [st ->]]; [by eexists _, _|].
    cbn. repeat case_bool_decide; by eexists _, _.
  - by apply win_streak_returns.
  - intros e s'. by apply trends_raise_statistics.
  - intros e s'. destruct (get_recent_games_shape api n s H) as (l & s1 & Hrun).
    unfold get_performance_metrics. rewrite (bind_returns _ _ _ _ _ Hrun).
    destruct (negb (truthy (PyGames l))); [unfold mret, M_ret; discriminate|].
    do 3 case_mean.
    rewrite bind_run. unfold lift at 1.
    destruct (stdev_lt _ _) eqn:Hsd;
      [unfold mret, M_ret; discriminate | intros [= <- _]; by eapply stdev_lt_raises].
  - intros e s'. unfold calculate_momentum_score. rewrite bind_run.
    assert (H1 : well_typed (_cache (analyze_performance_trends api s).2))
      by (rewrite trends_state; by apply get_recent_games_well_typed).
    destruct (analyze_performance_trends api s) as [[t|e1] s1] eqn:Ht; cbn in H1.
    + destruct (win_streak_returns api s1 H1) as (k & s2 & Hk).
      rewrite (bind_returns _ _ _ _ _ Hk). unfold mret, M_ret. discriminate.
    + intros [= <- _]. exact (trends_raise_statistics api s _ _ H Ht).
Qed.

Lemma derivations_fail_only_on_statistics_witness :
  well_typed (_cache fresh_tool)
  ∧ (∃ c s', get_competitive_context outage fresh_tool = (Returns c, s'))
  ∧ (∃ k s', get_team_win_streak outage fresh_tool = (Returns k, s')).
Proof.
  split; [exact well_typed_empty|].
  destruct (derivations_fail_only_on_statistics outage 20 fresh_tool well_typed_empty)
    as (Hc & Hk & _).
  split; [exact Hc | exact Hk].
Defined.

(** ** What the derivations report *)

Lemma count_if_le_length {A} (P : A → Prop) `{!∀ x, Decision (P x)} l :
  count_if P l ≤ Z.of_nat (length l).
Proof.
  induction l as [|x l IH]; [done|]. rewrite count_if_cons. cbn [length].
  destruct (decide (P x)); lia.
Qed.

(** X13.  On a non-empty game list the streak is "winning" exactly when the
    most recent result is "W" and "losing" for any other result; its length
    is at least 1 and at most the number of games; and the recent record
    always sums to ten, the wins being those among the first ten games: with
    fewer than ten games played, the games not played are counted as
    losses. *)
Theorem win_streak_record api s s' g0 rest :
  get_recent_games api 20 s = (Returns (PyGames (g0 :: rest)), s') →
  ∃ k, get_team_win_streak api s = (Returns k, s')
       ∧ (Streak.streak_type k = "winning" ↔ Game.result g0 = "W")
       ∧ (Streak.streak_type k = "losing" ↔ Game.result g0 ≠ "W")
       ∧ 1 ≤ Streak.streak_length k ≤ Z.of_nat (length (g0 :: rest))
       ∧ ∃ wins losses,
           Streak.recent_record k = Some (wins, losses)
           ∧ wins + losses = 10
           ∧ wins = count_if (λ g, Game.result g = "W") (take 10 (g0 :: rest))
           ∧ 0 ≤ wins ≤ Z.of_nat (length (g0 :: rest)) `min` 10.
Proof.
  intros H. rewrite (win_streak_run _ _ _ _ _ H). eexists. split; [reflexivity|].
  cbn [Streak.streak_type Streak.streak_length Streak.recent_record].
  split_and!.
  - case_bool_decide; split; done.
  - case_bool_decide; split; done.
  - rewrite count_if_cons, decide_True by done.
    pose proof (count_if_nonneg (λ g, Game.result g = Game.result g0) rest). lia.
  - pose proof (count_if_le_length (λ g, Game.result g = Game.result g0) (g0 :: rest)).
    lia.
  - eexists _, _. split; [reflexivity|]. split; [lia|]. split; [done|].
    pose proof (count_if_nonneg (λ g, Game.result g = "W") (take 10 (g0 :: rest))).
    pose proof (count_if_le_length (λ g, Game.result g = "W") (take 10 (g0 :: rest)))
      as Hle.
    rewrite length_take in Hle. lia.
Qed.

(** One game played and won: one win and nine losses on record. *)
Lemma win_streak_record_witness :
  get_recent_games single_game 20 fresh_tool
    = (Returns (PyGames [game_of_row (game_row "2025-10-21" "W" 112 7)]),
       (get_recent_games single_game 20 fresh_tool).2)
  ∧ (get_team_win_streak single_game fresh_tool).1
    = Returns (Streak.mk "winning" 1 (Some (1, 9))).
Proof.
  assert (H : get_recent_games single_game 20 fresh_tool
    = (Returns (PyGames [game_of_row (game_row "2025-10-21" "W" 112 7)]),
       (get_recent_games single_game 20 fresh_tool).2)) by (vm_compute; reflexivity).
  split; [exact H|].
  destruct (win_streak_record single_game fresh_tool _ _ _ H) as (k & Hrun & _).
  rewrite Hrun. cbn [fst].
  assert (Hk : (get_team_win_streak single_game fresh_tool).1 = Returns k)
    by (by rewrite Hrun).
  vm_compute in Hk. by injection Hk as <-.
Defined.






Lemma ratio_between (w n : Z) :
  0 ≤ w ≤ n → 0 < n →
  (inject_Z 0 <= inject_Z w / inject_Z n)%Q ∧ (inject_Z w / inject_Z n <= inject_Z 1)%Q.
Proof.
  intros Hw Hn.
  assert (Hpos : (0 < inject_Z n)%Q) by (change (inject_Z 0 < inject_Z n)%Q; by rewrite <- Zlt_Qlt).
  split.
  - apply Qle_shift_div_l; [done|]. rewrite Qmult_0_l.
    change (inject_Z 0 <= inject_Z w)%Q. rewrite <- Zle_Qle. lia.
  - apply Qle_shift_div_r; [done|]. rewrite Qmult_1_l. rewrite <- Zle_Qle. lia.
Qed.

(** X15.  With two games or more the metrics return, and the record is
    consistent: wins and losses add up to the number of games, the wins are
    the games with result "W", the rounded win rate lies between 0 and 1 and
    the consistency label is "high" or "moderate". *)
Theorem metrics_record api n s s' g1 g2 games :
  get_recent_games api n s = (Returns (PyGames (g1 :: g2 :: games)), s') →
  ∃ m, get_performance_metrics api n s = (Returns m, s')
       ∧ PerformanceMetrics.wins m
         = count_if (λ g, Game.result g = "W") (g1 :: g2 :: games)
       ∧ PerformanceMetrics.wins m + PerformanceMetrics.losses m
         = Z.of_nat (length (g1 :: g2 :: games))
       ∧ 0 ≤ PerformanceMetrics.wins m
       ∧ 0 ≤ PerformanceMetrics.losses m
       ∧ (0 <= PerformanceMetrics.win_rate m)%Q
       ∧ (PerformanceMetrics.win_rate m <= 1)%Q
       ∧ (PerformanceMetrics.consistency m = "high"
          ∨ PerformanceMetrics.consistency m = "moderate").
Proof.
  intros H. unfold get_performance_metrics.
  rewrite (bind_returns _ _ _ _ _ H). eexists. split; [reflexivity|].
  cbn [PerformanceMetrics.wins PerformanceMetrics.losses PerformanceMetrics.win_rate
       PerformanceMetrics.consistency].
  set (all := g1 :: g2 :: games).
  pose proof (count_if_nonneg (λ g, Game.result g = "W") all) as H0.
  pose proof (count_if_le_length (λ g, Game.result g = "W") all) as H1.
  assert (Hlen : 0 < Z.of_nat (length all)) by (cbn; lia).
  destruct (ratio_between _ _ (conj H0 H1) Hlen) as [Hlo Hhi].
  destruct (py_round_between _ 3 0 1 Hlo Hhi) as [Hrlo Hrhi].
  split_and!; [done | lia | done | lia | exact Hrlo | exact Hrhi |].
  destruct (Qltb _ _); [by left | by right].
Qed.

(** Five games: wins and losses add up to five. *)
Lemma metrics_record_witness :
  ∃ g1 g2 games,
    get_recent_games five_games 20 fresh_tool
      = (Returns (PyGames (g1 :: g2 :: games)),
         (get_recent_games five_games 20 fresh_tool).2)
    ∧ ∃ m, get_performance_metrics five_games 20 fresh_tool
           = (Returns m, (get_recent_games five_games 20 fresh_tool).2)
           ∧ PerformanceMetrics.wins m + PerformanceMetrics.losses m = 5.
Proof.
  eexists _, _, _. split; [vm_compute; reflexivity|].
  match goal with
  | |- ∃ m, get_performance_metrics _ _ _ = _ ∧ _ =>
      destruct (metrics_record five_games 20 fresh_tool
                  (get_recent_games five_games 20 fresh_tool).2
                  _ _ _ ltac:(vm_compute; reflexivity))
        as (m & Hrun & _ & Hsum & _)
  end.
  exists m. split; [exact Hrun|]. exact Hsum.
Defined.

(** X16.  [calculate_momentum_score] does not catch the failure of the trend
    analysis: on a non-empty list of at most ten games it raises
    [StatisticsError]; from eleven games on it returns a score. *)
Theorem momentum_needs_eleven_games api s s' games :
  get_recent_games api 20 s = (Returns (PyGames games), s') →
  games ≠ [] →
  ((length games ≤ 10)%nat →
     calculate_momentum_score api s = (Raises StatisticsError, s'))
  ∧ ((11 ≤ length games)%nat →
     ∃ m, calculate_momentum_score api s = (Returns m, s')).
Proof.
  intros H Hne. split; intros Hlen.
  - unfold calculate_momentum_score, analyze_performance_trends.
    rewrite bind_run, (bind_returns _ _ _ _ _ H).
    destruct games as [|g games]; [done|].
    change (negb (truthy (PyGames (g :: games)))) with false. cbv beta iota zeta.
    rewrite (drop_ge (g :: games) 10) by done. reflexivity.
  - destruct (trends_return_from_eleven_games _ _ _ _ H Hlen) as (t & Ht).
    assert (Hv : PyGames games ≠ PyNone) by discriminate.
    pose proof (get_recent_games_again _ _ _ _ _ H Hv) as Hagain.
    destruct games as [|g games]; [done|].
    pose proof (win_streak_run _ _ _ _ _ Hagain) as Hk.
    eexists. exact (calculate_momentum_score_run _ _ _ _ _ _ Ht Hk).
Qed.

Lemma momentum_needs_eleven_games_witness :
  get_recent_games single_game 20 fresh_tool
    = (Returns (PyGames [game_of_row (game_row "2025-10-21" "W" 112 7)]),
       (get_recent_games single_game 20 fresh_tool).2)
  ∧ calculate_momentum_score single_game fresh_tool
    = (Raises StatisticsError, (get_recent_games single_game 20 fresh_tool).2).
Proof.
  assert (H : get_recent_games single_game 20 fresh_tool
    = (Returns (PyGames [game_of_row (game_row "2025-10-21" "W" 112 7)]),
       (get_recent_games single_game 20 fresh_tool).2)) by (vm_compute; reflexivity).
  split; [exact H|].
  apply (momentum_needs_eleven_games single_game fresh_tool _ _ H); [discriminate|].
  cbn. lia.
Defined.

(** ** The momentum score is a whole number *)

Lemma round_half_even_whole (q : Q) (z : Z) : q == inject_Z z → round_half_even q = z.
Proof.
  intros H. unfold round_half_even.
  assert (Hf : Qfloor q = z) by (rewrite H; apply Qfloor_Z).
  rewrite Hf.
  assert (Hlt : (q - inject_Z z < 1 # 2)%Q).
  { rewrite H. unfold Qminus. rewrite Qplus_opp_r. reflexivity. }
  assert (Hc : Qcompare (q - inject_Z z) (1 # 2) = Lt) by (by apply Qlt_alt).
  by rewrite Hc.
Qed.

Lemma py_round_whole (q : Q) (z : Z) (ndigits : nat) :
  q == inject_Z z → py_round q ndigits == inject_Z z.
Proof.
  intros H. unfold py_round.
  pose proof (pow10_pos ndigits) as Hpos.
  set (scale := 10 ^ Z.of_nat ndigits) in *.
  rewrite (round_half_even_whole _ (z * scale)).
  - unfold Qeq. cbn. rewrite Z2Pos.id by done. lia.
  - rewrite H, inject_Z_mult. reflexivity.
Qed.

Lemma clamp_whole (q : Q) (z : Z) :
  q == inject_Z z → Qmax 0 (Qmin 100 q) == inject_Z (Z.max 0 (Z.min 100 z)).
Proof.
  intros H. rewrite H. clear H.
  destruct (Z.min_spec 100 z) as [[Hlt ->] | [Hle ->]].
  - rewrite Q.min_l by (change (inject_Z 100 <= inject_Z z)%Q; rewrite <- Zle_Qle; lia).
    rewrite Q.max_r by done. by rewrite Z.max_r by lia.
  - rewrite Q.min_r by (change (inject_Z z <= inject_Z 100)%Q; rewrite <- Zle_Qle; lia).
    destruct (Z.max_spec 0 z) as [[Hlt' ->] | [Hle' ->]].
    + apply Q.max_r. change (inject_Z 0 <= inject_Z z)%Q. rewrite <- Zle_Qle. lia.
    + apply Q.max_l. change (inject_Z z <= inject_Z 0)%Q. rewrite <- Zle_Qle. lia.
Qed.

Lemma raw_score_whole (r : Q) (k a b : Z) :
  r == inject_Z k / 10 →
  50 + (r - (1 # 2)) * 60 + inject_Z a + inject_Z b == inject_Z (20 + 6 * k + a + b).
Proof.
  intros ->. unfold Qeq, Qplus, Qminus, Qmult, Qdiv, Qinv, Qopp, inject_Z. cbn. lia.
Qed.

(** The sentiment as the thresholds give it for a whole score. *)
Lemma momentum_of_whole trends streak :
  (∀ t, trends = Some t → ∃ w, Trends.recent_win_rate t == inject_Z w / 10) →
  ∃ z, 0 ≤ z ≤ 100
       ∧ Momentum.score (momentum_of trends streak) == inject_Z z
       ∧ Momentum.sentiment (momentum_of trends streak)
         = (if bool_decide (75 ≤ z) then "excellent"
            else if bool_decide (60 ≤ z) then "positive"
            else if bool_decide (40 ≤ z) then "neutral" else "concerning").
Proof.
  intros Hrate.
  assert (∃ k, default (1 # 2) (Trends.recent_win_rate <$> trends) == inject_Z k / 10)
    as [k Hk].
  { destruct trends as [t|]; cbn.
    - by apply Hrate.
    - by exists 5. }
  unfold momentum_of. cbn [Momentum.score Momentum.sentiment].
  set (a := if bool_decide (Streak.streak_type streak = "winning")
            then Z.min (Streak.streak_length streak * 3) 20
            else - Z.min (Streak.streak_length streak * 3) 20).
  set (b := if bool_decide (Trends.momentum <$> trends = Some "positive") then 10
            else if bool_decide (Trends.momentum <$> trends = Some "negative")
                 then -10 else 0).
  set (raw := (_ + _ + _)%Q).
  assert (Hraw : raw == inject_Z (20 + 6 * k + a + b)).
  { rewrite <- (raw_score_whole _ k a b Hk). subst raw a b.
    repeat case_bool_decide; reflexivity. }
  pose proof (clamp_whole _ _ Hraw) as Hc.
  set (c := Qmax 0 (Qmin 100 raw)) in *.
  set (z := Z.max 0 (Z.min 100 (20 + 6 * k + a + b))) in *.
  exists z. split; [lia|]. split; [by apply py_round_whole|].
  assert (Hle : ∀ n : Z, Qle_bool (inject_Z n) c = bool_decide (n ≤ z)).
  { intros n. apply eq_true_iff_eq.
    rewrite Qle_bool_iff, Hc, <- Zle_Qle, bool_decide_eq_true. done. }
  change 75%Q with (inject_Z 75). change 60%Q with (inject_Z 60).
  change 40%Q with (inject_Z 40). by rewrite !Hle.
Qed.

Lemma trends_rate_in_tenths api s t s' :
  analyze_performance_trends api s = (Returns (Some t), s') →
  ∃ w, Trends.recent_win_rate t == inject_Z w / 10.
Proof.
  unfold analyze_performance_trends. rewrite bind_run.
  destruct (get_recent_games api 20 s) as [[v|e] s1]; [|discriminate].
  destruct (negb (truthy v)); [unfold mret, M_ret; discriminate|].
  destruct v; try (unfold raise; discriminate).
  rewrite bind_run. unfold lift at 1. destruct (mean _); [|discriminate].
  rewrite bind_run. unfold lift at 1.
  match goal with
  | |- context [match mean ?x with _ => _ end] => destruct (mean x); [|discriminate]
  end.
  unfold mret, M_ret. intros [= <- _]. cbn. by eexists.
Qed.

(** X17.  Every score that [calculate_momentum_score] returns is a whole
    number between 0 and 100 (the win rate comes in tenths and is weighted
    by 60), so rounding to one decimal changes nothing and the sentiment is
    the one the thresholds 75, 60 and 40 assign to the reported score. *)
Theorem momentum_sentiment_matches_score api s m s' :
  calculate_momentum_score api s = (Returns m, s') →
  ∃ z, 0 ≤ z ≤ 100
       ∧ Momentum.score m == inject_Z z
       ∧ (Momentum.sentiment m = "excellent" ↔ 75 ≤ z)
       ∧ (Momentum.sentiment m = "positive" ↔ 60 ≤ z < 75)
       ∧ (Momentum.sentiment m = "neutral" ↔ 40 ≤ z < 60)
       ∧ (Momentum.sentiment m = "concerning" ↔ z < 40).
Proof.
  unfold calculate_momentum_score. rewrite bind_run.
  destruct (analyze_performance_trends api s) as [[trends|e] s1] eqn:Ht; [|discriminate].
  rewrite bind_run.
  destruct (get_team_win_streak api s1) as [[streak|e] s2]; [|discriminate].
  unfold mret, M_ret. intros [= <- _].
  destruct (momentum_of_whole trends streak) as (z & Hz & Hscore & Hsent).
  { intros t ->. by eapply trends_rate_in_tenths. }
  exists z. split; [done|]. split; [done|]. rewrite Hsent.
  repeat case_bool_decide; split_and!; split; (done || lia).
Qed.

(** Twelve games, eight of the last ten won, the last two in a row. *)
Lemma momentum_sentiment_matches_score_witness :
  ∃ m s',
    calculate_momentum_score twelve_games fresh_tool = (Returns m, s')
    ∧ ∃ z, 0 ≤ z ≤ 100 ∧ Momentum.score m == inject_Z z.
Proof.
  destruct (calculate_momentum_score twelve_games fresh_tool) as [[m|e] s'] eqn:Hrun.
  - exists m, s'. split; [reflexivity|].
    destruct (momentum_sentiment_matches_score twelve_games fresh_tool m s' Hrun)
      as (z & Hz & Hscore & _).
    by exists z.
  - exfalso. apply (f_equal fst) in Hrun. vm_compute in Hrun. discriminate.
Defined.

(** ** Edge cases of the top performers *)

(** X18.  With a window of 0 games every entry carries [nan] for its three
    averages (the mean of an empty column); the players with a log are kept
    all the same, five at most. *)
Theorem zero_window_gives_nan api s roster s1 :
  get_team_roster api s = (Returns (PyRoster roster), s1) →
  ∃ l s2,
    get_top_performers_fetch api 0 s = (Returns (PyPerformers l), s2)
    ∧ Forall (λ p, Performer.avg_points p = NaN
                   ∧ Performer.avg_assists p = NaN
                   ∧ Performer.avg_rebounds p = NaN) l
    ∧ length l = (5 `min` length (filter (has_log api (clock s1)) (take 10 roster)))%nat.
Proof.
  intros Hr. unfold get_top_performers_fetch, try_except.
  rewrite (bind_returns _ _ _ _ _ Hr), bind_run, performers_loop_run.
  cbn [app]. eexists _, _. split; [reflexivity|]. split.
  - apply Forall_take. rewrite sorted_reverse_perm.
    unfold entries. apply Forall_fmap, Forall_forall. intros p _.
    unfold entry_of. cbn.
    destruct (player_game_log api (Player.player_id p) (clock s1)); cbn;
      rewrite ?take_0; done.
  - rewrite length_take, sorted_reverse_length. unfold entries.
    by rewrite length_fmap.
Qed.

Lemma zero_window_gives_nan_witness :
  get_team_roster mid_season fresh_tool
    = (Returns (PyRoster twelve_players), (get_team_roster mid_season fresh_tool).2)
  ∧ ∃ l s2,
      get_top_performers_fetch mid_season 0 fresh_tool = (Returns (PyPerformers l), s2)
      ∧ length l = 5%nat
      ∧ Forall (λ p, Performer.avg_points p = NaN) l.
Proof.
  assert (Hr : get_team_roster mid_season fresh_tool
    = (Returns (PyRoster twelve_players), (get_team_roster mid_season fresh_tool).2))
    by (vm_compute; reflexivity).
  split; [exact Hr|].
  destruct (zero_window_gives_nan mid_season fresh_tool twelve_players _ Hr)
    as (l & s2 & Hrun & Hnan & Hlen).
  exists l, s2. split; [exact Hrun|]. split.
  - rewrite Hlen. vm_compute. reflexivity.
  - eapply Forall_impl; [exact Hnan|]. by intros p (H & _).
Defined.

Lemma performers_key_ne_roster (n : nat) : "performers_" +:+ pretty n ≠ "roster".
Proof. discriminate. Qed.

(** X19.  What a first [get_top_performers] costs.  With neither the roster
    nor the performers cached and the roster endpoint answering, it makes
    one roster request and one game-log request for each of the first ten
    players, whether that log arrives or not; the roster is cached on the
    way, so a [get_team_roster] that follows makes no request. *)
Theorem top_performers_cost api n s roster :
  _cache s !! "roster" = None →
  _cache s !! ("performers_" +:+ pretty n) = None →
  common_team_roster api (team_id s) (clock s) = Returns roster →
  ∃ l s',
    get_top_performers api n s = (Returns (PyPerformers l), s')
    ∧ api_calls s' = (api_calls s + 1 + length (take 10 roster))%nat
    ∧ (length (take 10 roster) ≤ 10)%nat
    ∧ get_team_roster api s' = (Returns (PyRoster roster), s').
Proof.
  intros Hkr Hkp Hroster.
  assert (Hr : get_team_roster api s
               = (Returns (PyRoster roster),
                  mkState (team_id s)
                    (<["roster" := (PyRoster roster, At (clock s + 3600))]> (_cache s))
                    (clock s) (S (api_calls s)))).
  { unfold get_team_roster.
    rewrite (fetch_or_cache_miss _ _ _ _ _ (get_cached_absent _ _ _ Hkr)).
    unfold get_team_roster_fetch, try_except. rewrite bind_run.
    unfold self_team_id. cbn. rewrite bind_run. unfold external. cbn.
    rewrite Hroster. reflexivity. }
  unfold get_top_performers.
  rewrite (fetch_or_cache_miss _ _ _ _ _ (get_cached_absent _ _ _ Hkp)).
  unfold get_top_performers_fetch, try_except.
  rewrite (bind_returns _ _ _ _ _ Hr), bind_run, performers_loop_run.
  cbn [app team_id _cache clock api_calls].
  eexists _, _. split; [reflexivity|]. split_and!.
  - cbn. lia.
  - rewrite length_take. lia.
  - unfold get_team_roster. eapply fetch_or_cache_hit.
    + cbn. rewrite lookup_insert_ne by apply performers_key_ne_roster.
      apply lookup_insert_eq.
    + discriminate.
    + right. cbn. apply bool_decide_eq_true. lia.
Qed.

(** Twelve players on the roster: eleven requests. *)
Lemma top_performers_cost_witness :
  _cache fresh_tool !! "roster" = None
  ∧ _cache fresh_tool !! ("performers_" +:+ pretty 5%nat) = None
  ∧ common_team_roster mid_season (team_id fresh_tool) (clock fresh_tool)
    = Returns twelve_players
  ∧ ∃ l s', get_top_performers mid_season 5 fresh_tool = (Returns (PyPerformers l), s')
            ∧ api_calls s' = 11%nat.
Proof.
  split; [reflexivity|]. split; [reflexivity|]. split; [reflexivity|].
  destruct (top_performers_cost mid_season 5 fresh_tool twelve_players
              eq_refl eq_refl eq_refl) as (l & s' & Hrun & Hcalls & _).
  exists l, s'. split; [exact Hrun|]. rewrite Hcalls. reflexivity.
Defined.

(** ** Construction *)

(** X20.  [DataTool(team_name)] takes the id of the first team that carries
    the name and starts with an empty cache; it raises [ValueError] exactly
    when no team carries the name. *)
Theorem init_takes_first_team nba_teams team_name now :
  match __init__ nba_teams team_name now with
  | inl self =>
      ∃ earlier team later,
        nba_teams = earlier ++ team :: later
        ∧ Forall (λ t, Team.full_name t ≠ team_name) earlier
        ∧ Team.full_name team = team_name
        ∧ self = mkState (Team.id team) ∅ now 0
  | inr msg =>
      Forall (λ t, Team.full_name t ≠ team_name) nba_teams
      ∧ msg = "Team '" +:+ team_name +:+ "' not found"
  end.
Proof.
  unfold __init__. induction nba_teams as [|t teams IH].
  - cbn. by split.
  - rewrite filter_cons. destruct (decide (Team.full_name t = team_name)) as [Ht|Ht].
    + exists [], t, teams. by split_and!.
    + destruct (filter _ teams) as [|t' found].
      * destruct IH as [IH Hmsg]. split; [by constructor | done].
      * destruct IH as (earlier & team & later & -> & Hearlier & Hteam & Hself).
        exists (t :: earlier), team, later. split_and!; [done | by constructor | done..].
Qed.

(** ** Any number of overlapping callers *)

Lemma run_schedule_app key f ttl l1 l2 cs :
  run_schedule key f ttl (l1 ++ l2) cs
  = run_schedule key f ttl l2 (run_schedule key f ttl l1 cs).
Proof. unfold run_schedule. apply foldl_app. Qed.

(** One round: every caller that stands at [c] takes the same step. *)
Lemma run_round key f ttl (c c' : caller) (g : State → State) (I : State → Prop) :
  (∀ s, I s → caller_step key f ttl c s = (c', g s) ∧ I (g s)) →
  ∀ n done todo s,
    I s →
    run_schedule key f ttl (Step <$> seq (length done) n)
      (done ++ replicate n c ++ todo, s)
    = (done ++ replicate n c' ++ todo, Nat.iter n g s)
    ∧ I (Nat.iter n g s).
Proof.
  intros Hstep. induction n as [|n IH]; intros done todo s Hs.
  - by split.
  - destruct (Hstep s Hs) as [Hc Hg].
    cbn [seq fmap list_fmap]. unfold run_schedule. cbn [foldl].
    unfold run_event at 2. cbn [fst snd replicate app].
    rewrite (list_lookup_middle done _ c (length done) eq_refl), Hc.
    rewrite insert_app_r_alt, Nat.sub_diag by done. cbn [insert list_insert].
    change (done ++ c' :: replicate n c ++ todo)
      with (done ++ [c'] ++ replicate n c ++ todo).
    rewrite (assoc_L (++) done [c']).
    replace (S (length done)) with (length (done ++ [c']))
      by (rewrite length_app; cbn; lia).
    destruct (IH (done ++ [c']) todo (g s) Hg) as [Hrun HI].
    unfold run_schedule in Hrun. rewrite Hrun.
    rewrite <- (assoc_L (++) done [c']), Nat.iter_succ_r. done.
Qed.

Lemma iter_bump_calls n s :
  Nat.iter n (λ s, mkState (team_id s) (_cache s) (clock s) (S (api_calls s))) s
  = mkState (team_id s) (_cache s) (clock s) (api_calls s + n).
Proof.
  induction n as [|n IH].
  - cbn. by rewrite Nat.add_0_r, state_eta.
  - rewrite Nat.iter_succ, IH. cbn. f_equal. lia.
Qed.

Lemma iter_store_calls key v ttl n s :
  api_calls (Nat.iter n (λ s, (_set_cache key v ttl s).2) s) = api_calls s.
Proof.
  induction n as [|n IH]; [done|].
  rewrite Nat.iter_succ, set_cache_run. exact IH.
Qed.

(** X21.  Without a lock the number of loads grows with the number of
    overlapping callers: when [n] callers ask for the same missing key and
    each has looked up before any has stored, all [n] invoke the loader, and
    each returns what it loaded itself. *)
Theorem lockstep_callers_all_load key ttl (f : Z → outcome pyval) v n s :
  _cache s !! key = None →
  f (clock s) = Returns v →
  ∃ s', run_schedule key (external f) ttl (lockstep n) (replicate n AtLookup, s)
        = (replicate n (Finished (Returns v)), s')
        ∧ api_calls s' = (api_calls s + n)%nat.
Proof.
  intros Hk Hf. unfold lockstep. rewrite !run_schedule_app.
  destruct (run_round key (external f) ttl AtLookup AtLoad id
              (λ s0, _cache s0 !! key = None)) with (n := n) (done := @nil caller)
              (todo := @nil caller) (s := s) as [H1 _].
  { intros s0 H0. cbn. by rewrite (get_cached_absent _ _ _ H0). }
  { done. }
  rewrite !app_nil_r in H1. cbn [app length] in H1. rewrite H1.
  assert (Hid : Nat.iter n id s = s).
  { clear. induction n as [|n IH]; [done|]. rewrite Nat.iter_succ. exact IH. }
  rewrite Hid.
  destruct (run_round key (external f) ttl AtLoad (AtStore v)
              (λ s0, mkState (team_id s0) (_cache s0) (clock s0) (S (api_calls s0)))
              (λ s0, clock s0 = clock s)) with (n := n) (done := @nil caller)
              (todo := @nil caller) (s := s) as [H2 _].
  { intros s0 H0. cbn. unfold external. rewrite H0, Hf. done. }
  { done. }
  rewrite !app_nil_r in H2. cbn [app length] in H2. rewrite H2, iter_bump_calls.
  destruct (run_round key (external f) ttl (AtStore v) (Finished (Returns v))
              (λ s0, (_set_cache key v ttl s0).2) (λ _, True)) with (n := n)
              (done := @nil caller) (todo := @nil caller)
              (s := mkState (team_id s) (_cache s) (clock s) (api_calls s + n))
    as [H3 _].
  { intros s0 _. cbn. by rewrite set_cache_run. }
  { done. }
  rewrite !app_nil_r in H3. cbn [app length] in H3. rewrite H3.
  eexists. split; [reflexivity|]. by rewrite iter_store_calls.
Qed.

(** Three callers for the standings of a fresh tool: three loads. *)
Lemma lockstep_callers_all_load_witness :
  _cache fresh_tool !! "standings" = None
  ∧ steady_loader (clock fresh_tool)
    = Returns (PyStandings (standings_of_row (standings_row 6)))
  ∧ ∃ s', run_schedule "standings" (external steady_loader) (Some 300) (lockstep 3)
            (replicate 3 AtLookup, fresh_tool)
          = (replicate 3 (Finished (Returns (PyStandings (standings_of_row (standings_row 6))))),
             s')
          ∧ api_calls s' = 3%nat.
Proof.
  split; [reflexivity|]. split; [reflexivity|].
  exact (lockstep_callers_all_load "standings" (Some 300) steady_loader _ 3 fresh_tool
           eq_refl eq_refl).
Defined.

(** ** Loading the standings *)

Lemma filter_first {A} (P : A → Prop) `{!∀ x, Decision (P x)} l :
  match filter P l with
  | [] => Forall (λ x, ¬ P x) l
  | x :: _ => ∃ earlier later,
                l = earlier ++ x :: later ∧ Forall (λ y, ¬ P y) earlier ∧ P x
  end.
Proof.
  induction l as [|y l IH]; [by constructor|].
  rewrite filter_cons. destruct (decide (P y)) as [Hy|Hy].
  - by exists [], l.
  - destruct (filter P l) as [|x found].
    + by constructor.
    + destruct IH as (earlier & later & -> & Hearlier & Hx).
      exists (y :: earlier), later. split_and!; [done | by constructor | done].
Qed.

(** X22.  When no standings are cached and the table arrives,
    [get_standings] returns the first row that carries the team's id, field
    by field, and the empty dictionary when the table has no such row;
    either result is stored for 300 seconds. *)
Theorem standings_fresh_load api s df :
  _cache s !! "standings" = None →
  league_standings api (clock s) = Returns df →
  ∃ v s',
    get_standings api s = (Returns v, s')
    ∧ _cache s' !! "standings" = Some (v, At (clock s + 300))
    ∧ api_calls s' = S (api_calls s)
    ∧ match v with
      | PyStandings st =>
          ∃ earlier r later,
            df = earlier ++ r :: later
            ∧ Forall (λ r', LeagueStandings.TeamID r' ≠ team_id s) earlier
            ∧ LeagueStandings.TeamID r = team_id s
            ∧ st = standings_of_row r
      | PyEmptyDict => Forall (λ r, LeagueStandings.TeamID r ≠ team_id s) df
      | _ => False
      end.
Proof.
  intros Hk Hdf. unfold get_standings.
  rewrite (fetch_or_cache_miss _ _ _ _ _ (get_cached_absent _ _ _ Hk)).
  unfold get_standings_fetch, try_except. rewrite bind_run.
  unfold external. rewrite Hdf. cbn. rewrite bind_run. unfold self_team_id. cbn.
  pose proof (filter_first (λ r, LeagueStandings.TeamID r = team_id s) df) as Hfirst.
  destruct (filter _ df) as [|r found]; cbn.
  - eexists _, _. split; [reflexivity|]. cbn.
    split; [apply lookup_insert_eq|]. split; [reflexivity|]. exact Hfirst.
  - destruct Hfirst as (earlier & later & -> & Hearlier & Hr).
    eexists _, _. split; [reflexivity|]. cbn.
    split; [apply lookup_insert_eq|]. split; [reflexivity|].
    by exists earlier, r, later.
Qed.

Lemma standings_fresh_load_witness :
  _cache fresh_tool !! "standings" = None
  ∧ league_standings five_games (clock fresh_tool) = Returns [standings_row 6]
  ∧ ∃ s', get_standings five_games fresh_tool
          = (Returns (PyStandings (standings_of_row (standings_row 6))), s')
          ∧ _cache s' !! "standings"
            = Some (PyStandings (standings_of_row (standings_row 6)), At 300).
Proof.
  split; [reflexivity|]. split; [reflexivity|].
  destruct (standings_fresh_load five_games fresh_tool _ eq_refl eq_refl)
    as (v & s' & Hrun & Hk & _).
  assert (Hv : (get_standings five_games fresh_tool).1 = Returns v) by (by rewrite Hrun).
  vm_compute in Hv. injection Hv as <-.
  exists s'. split; [exact Hrun | exact Hk].
Defined.
